(** * PvsNP: permutation-test classification of neurons

    A shallow embedding of [analysis/resampling.py]: the two-sided
    empirical p-value, the event-count filter, the two classification
    strategies and the shuffle workers that build the null distribution.

    Modelling choices.
    - The functions that compute with the cells of a frame are given twice.
      Over exact rationals ([Q], equality of computed values is [Qeq]) they
      carry what does not depend on rounding: which rows are counted, what
      is raised and when, which neurons get a label, how values are
      ordered.  Over binary64 floats (module [Binary64]) they carry the
      values the code returns and what it decides at a cutoff.
    - A [DataFrame] is its row index (a list of labels) and its columns in
      order, each a name and the values of the column.
    - A Python exception is a constructor of [exn]; a function that can
      raise returns a [result].
    - The dictionary of labels is a [gmap string string].
    - Column names are taken to be distinct, as in a frame read from a CSV
      file: a column lookup returns the first column of that name.
    - A label slice of columns follows pandas: an end that is not a column
      is placed by position where the column names are sorted, and raises
      [KeyError] where they are not.
    - The assignment of the shuffled block is by position, as pandas does
      it on a frame under the default [RangeIndex].
    - [au.compute_diff_rate] and the random generator behind
      [.sample(frac=1)] are not in these sources; the shuffle workers take
      them as parameters. *)

From Stdlib Require Import QArith Qabs Qround Lqa Ascii Floats.
From stdpp Require Import gmap strings list sorting.

Open Scope Q_scope.

(** ** Python results *)

Inductive exn : Set :=
| ZeroDivisionError
| KeyError
| IndexError
| ValueError.

Inductive result (A : Type) : Type :=
| Ok (a : A)
| Raise (e : exn).
Arguments Ok {A} a.
Arguments Raise {A} e.

(** Sequencing: an exception aborts what follows ([x ← r; k]). *)
Global Instance result_bind : MBind result := λ A B k r,
  match r with
  | Ok a => k a
  | Raise e => Raise e
  end.

(** A [for] loop over [xs] whose body updates a state and may raise. *)
Fixpoint for_each {A S : Type} (xs : list A) (body : A → S → result S)
    (s : S) : result S :=
  match xs with
  | [] => Ok s
  | x :: rest => s' ← body x s; for_each rest body s'
  end.

(** ** Data frames *)

Inductive label : Set :=
| LInt (i : Z)
| LStr (s : string).

Global Instance label_eq_dec : EqDecision label.
Proof. solve_decision. Defined.

Record DataFrame : Type := mkFrame {
  index : list label;
  columns : list (string * list Q)
}.

(** [df.columns] as the names in order. *)
Definition column_names (df : DataFrame) : list string := (columns df).*1.

(** [RangeIndex(n)]: the labels 0 .. n-1. *)
Definition range_index (n : nat) : list label :=
  map (fun i => LInt (Z.of_nat i)) (seq 0 n).

Fixpoint assoc {A : Type} (name : string) (cols : list (string * A))
    : option A :=
  match cols with
  | [] => None
  | (c, vs) :: rest => if String.eqb c name then Some vs else assoc name rest
  end.

(** [df[name]] and [df.loc[:, name]]: the column, [KeyError] when absent. *)
Definition getitem (df : DataFrame) (name : string) : result (list Q) :=
  match assoc name (columns df) with
  | Some vs => Ok vs
  | None => Raise KeyError
  end.

Definition loc_col (df : DataFrame) (name : string) : result (list Q) :=
  getitem df name.

(** [series.values[i]]: positional read, [IndexError] out of range. *)
Definition values_at {A : Type} (vs : list A) (i : nat) : result A :=
  match vs !! i with
  | Some v => Ok v
  | None => Raise IndexError
  end.

(** The positions of a row label in an index. *)
Fixpoint positions_of (lbl : label) (idx : list label) (i : nat) : list nat :=
  match idx with
  | [] => []
  | l :: rest =>
      if decide (l = lbl) then i :: positions_of lbl rest (S i)
      else positions_of lbl rest (S i)
  end.

(** What [series[lbl]] selects: the value of the one row that carries the
    label, or the sub-series of the rows that share it. *)
Inductive selection (A : Type) : Type :=
| Scalar (v : A)
| SubSeries (vs : list A).
Arguments Scalar {A} v.
Arguments SubSeries {A} vs.

(** [series[lbl]] on a series carrying the index [idx]: label-based read; a
    missing label raises [KeyError]. *)
Definition at_label {A : Type} (idx : list label) (vs : list A)
    (lbl : label) : result (selection A) :=
  match positions_of lbl idx 0 with
  | [] => Raise KeyError
  | [i] => v ← values_at vs i; Ok (Scalar v)
  | several => Ok (SubSeries (omap (λ i, vs !! i) several))
  end.

(** The truth value of [selection OP x] as the condition of an [if]: the
    comparison of a sub-series is a series of booleans, whose truth value
    raises [ValueError]. *)
Definition truth {A : Type} (s : selection A) (test : A → bool)
    : result bool :=
  match s with
  | Scalar v => Ok (test v)
  | SubSeries _ => Raise ValueError
  end.

(** [series[mask]] / [series.loc[mask]]: boolean indexing. *)
Fixpoint boolean_index {A : Type} (vs : list A) (mask : list bool)
    : list A :=
  match vs, mask with
  | v :: vs', b :: mask' =>
      if b then v :: boolean_index vs' mask' else boolean_index vs' mask'
  | _, _ => []
  end.

(** Python's [1 / n] on an integer length. *)
Definition py_inv (n : nat) : result Q :=
  match n with
  | O => Raise ZeroDivisionError
  | S _ => Ok (1 / inject_Z (Z.of_nat n))
  end.

(** ** [compute_two_side_p_val] *)

Definition compute_two_side_p_val (resampled_df original_D_hat_df : DataFrame)
    (neuron : string) : result Q :=
  w ← py_inv (length (index resampled_df));
  col ← loc_col resampled_df neuron;
  col' ← getitem resampled_df neuron;
  orig ← getitem original_D_hat_df neuron;
  d_hat ← values_at orig 0;
  let mask := map (fun v => Qle_bool (Qabs d_hat) (Qabs v)) col' in
  Ok (w * inject_Z (Z.of_nat (length (boolean_index col mask)))).

(** ** [get_num_of_events] *)

Definition get_num_of_events (dataframe : DataFrame) (neuron : string)
    : result nat :=
  col ← loc_col dataframe neuron;
  col' ← getitem dataframe neuron;
  let mask := map (fun v => negb (Qeq_bool v 0)) col' in
  Ok (length (boolean_index col mask)).

(** ** The dictionary of labels *)

(** [if not neuron in classified_neurons: classified_neurons[neuron] = lab] *)
Definition set_if_absent (neuron lab : string) (m : gmap string string)
    : gmap string string :=
  match m !! neuron with
  | Some _ => m
  | None => <[neuron := lab]> m
  end.

(** The first loop of both strategies: the event-count filter. *)
Definition event_count_filter (dataframe : DataFrame) (threshold : Z)
    : result (gmap string string) :=
  for_each (column_names dataframe)
    (fun neuron classified_neurons =>
       n ← get_num_of_events dataframe neuron;
       if (Z.of_nat n <? threshold)%Z
       then Ok (set_if_absent neuron "unclassified" classified_neurons)
       else Ok classified_neurons)
    ∅.

Definition default_p_value : Q := 5 # 100.
Definition default_threshold : Z := 10.

(** ** [classify_neurons_non_parametrically] *)

Definition classify_neurons_non_parametrically
    (dataframe resampled_df real_diff_df : DataFrame)
    (p_value : Q) (threshold : Z) : result (gmap string string) :=
  classified_neurons ← event_count_filter dataframe threshold;
  for_each (column_names resampled_df)
    (fun neuron classified_neurons =>
       p ← compute_two_side_p_val resampled_df real_diff_df neuron;
       if Qle_bool p p_value
       then Ok (set_if_absent neuron "selective" classified_neurons)
       else Ok (set_if_absent neuron "not-selective" classified_neurons))
    classified_neurons.

(** ** [np.percentile] *)

Global Instance Qle_rel_dec : RelDecision Qle.
Proof.
  intros x y. destruct (Qle_bool x y) eqn:E.
  - left. by apply Qle_bool_iff.
  - right. intros H. apply Qle_bool_iff in H. congruence.
Defined.

(** numpy's default (linear interpolation) percentile of a one-dimensional
    array: [q] outside [0, 100] raises [ValueError]; otherwise the value at
    the virtual position [q/100 * (n-1)] of the sorted data, interpolated
    between its two neighbours.  On an empty array numpy (1.22 and later)
    raises [IndexError]; earlier releases return [nan] with a warning, a
    value this model does not have. *)
Definition percentile (a : list Q) (q : Q) : result Q :=
  if negb (Qle_bool 0 q && Qle_bool q 100) then Raise ValueError
  else
    match merge_sort Qle a with
    | [] => Raise IndexError
    | (x0 :: _) as sorted =>
        let n := length sorted in
        let pos := (q / 100) * inject_Z (Z.of_nat (n - 1)) in
        let lo := Z.to_nat (Qfloor pos) in
        let gamma := pos - inject_Z (Qfloor pos) in
        let below := nth lo sorted x0 in
        let above := nth (Nat.min (lo + 1) (n - 1)) sorted x0 in
        Ok (below + (above - below) * gamma)
    end.

(** ** [two_tailed_neuron_classification] *)

Definition two_tailed_neuron_classification
    (resampled_df real_d_df : DataFrame) (neuron behavior_name : string)
    (high_tail low_tail : Q) : result string :=
  obs_col ← getitem real_d_df neuron;
  d ← at_label (index real_d_df) obs_col (LStr "d");
  null_col ← getitem resampled_df neuron;
  high ← percentile null_col high_tail;
  above ← truth d (λ v, Qle_bool high v);
  if (above : bool) then Ok behavior_name
  else
    obs_col ← getitem real_d_df neuron;
    d ← at_label (index real_d_df) obs_col (LStr "d");
    null_col ← getitem resampled_df neuron;
    low ← percentile null_col low_tail;
    below ← truth d (λ v, Qle_bool v low);
    if (below : bool) then Ok ("Non-" +:+ behavior_name)
    else Ok "Not-selective"%string.

(** ** [classify_neurons_parametrically] *)

Definition classify_neurons_parametrically
    (dataframe resampled_df real_diff_df : DataFrame)
    (behavior_name : string) (high_tail low_tail : Q) (threshold : Z)
    : result (gmap string string) :=
  classified_neurons ← event_count_filter dataframe threshold;
  for_each (column_names resampled_df)
    (fun neuron classified_neurons =>
       match classified_neurons !! neuron with
       | Some _ => Ok classified_neurons
       | None =>
           lab ← two_tailed_neuron_classification resampled_df real_diff_df
                   neuron behavior_name high_tail low_tail;
           Ok (<[neuron := lab]> classified_neurons)
       end)
    classified_neurons.

(** ** The values in binary64

    The cells of a frame are binary64 numbers, and so are the p-value and
    the percentiles.  The functions that compute or compare such values are
    given here again over [float], operation for operation: the two
    products of the p-value, the interpolation of [np.percentile], and the
    comparisons with the cutoffs are rounded as IEEE 754 rounds them, and
    a cell can be [nan]. *)

Module Binary64.
Local Open Scope float_scope.

Record DataFrame : Type := mkFrame {
  index : list label;
  columns : list (string * list float)
}.

Definition column_names (df : DataFrame) : list string := (columns df).*1.

Definition getitem (df : DataFrame) (name : string) : result (list float) :=
  match assoc name (columns df) with
  | Some vs => Ok vs
  | None => Raise KeyError
  end.

Definition loc_col (df : DataFrame) (name : string) : result (list float) :=
  getitem df name.

(** A length as a float; the conversion is exact below [2^53], beyond any
    table that fits in memory. *)
Definition of_nat (n : nat) : float :=
  PrimFloat.of_uint63 (Uint63.of_Z (Z.of_nat n)).

(** Python's [1 / n] on an integer length: the quotient, rounded. *)
Definition py_inv (n : nat) : result float :=
  match n with
  | O => Raise ZeroDivisionError
  | S _ => Ok (1 / of_nat n)
  end.

Definition compute_two_side_p_val (resampled_df original_D_hat_df : DataFrame)
    (neuron : string) : result float :=
  w ← py_inv (length (index resampled_df));
  col ← loc_col resampled_df neuron;
  col' ← getitem resampled_df neuron;
  orig ← getitem original_D_hat_df neuron;
  d_hat ← values_at orig 0;
  let mask := map (fun v => abs d_hat <=? abs v) col' in
  Ok (w * of_nat (length (boolean_index col mask))).

Definition get_num_of_events (dataframe : DataFrame) (neuron : string)
    : result nat :=
  col ← loc_col dataframe neuron;
  col' ← getitem dataframe neuron;
  let mask := map (fun v => negb (v =? 0)) col' in
  Ok (length (boolean_index col mask)).

Definition event_count_filter (dataframe : DataFrame) (threshold : Z)
    : result (gmap string string) :=
  for_each (column_names dataframe)
    (fun neuron classified_neurons =>
       n ← get_num_of_events dataframe neuron;
       if (Z.of_nat n <? threshold)%Z
       then Ok (set_if_absent neuron "unclassified" classified_neurons)
       else Ok classified_neurons)
    ∅.

(** The default [p_value=0.05]: the binary64 number nearest to 0.05. *)
Definition default_p_value : float := 0x1.999999999999ap-5.

Definition classify_neurons_non_parametrically
    (dataframe resampled_df real_diff_df : DataFrame)
    (p_value : float) (threshold : Z) : result (gmap string string) :=
  classified_neurons ← event_count_filter dataframe threshold;
  for_each (column_names resampled_df)
    (fun neuron classified_neurons =>
       p ← compute_two_side_p_val resampled_df real_diff_df neuron;
       if p <=? p_value
       then Ok (set_if_absent neuron "selective" classified_neurons)
       else Ok (set_if_absent neuron "not-selective" classified_neurons))
    classified_neurons.

(** The order in which numpy sorts: by value, every [nan] last. *)
Definition sorts_before (x y : float) : Prop :=
  is_nan y || (x <=? y) = true.

Global Instance sorts_before_dec : RelDecision sorts_before.
Proof. intros x y. unfold sorts_before. apply _. Defined.

(** [np.floor] of a float as an integer. *)
Definition floor (x : float) : Z :=
  match Prim2SF x with
  | S754_finite s m e => Z.shiftl (if s then Z.neg m else Z.pos m) e
  | _ => 0%Z
  end.

(** numpy's [_lerp]: [a + (b - a) * t], computed from the other end where
    [t >= 0.5]. *)
Definition lerp (a b t : float) : float :=
  let diff_b_a := b - a in
  if 0.5 <=? t then b - diff_b_a * (1 - t) else a + diff_b_a * t.

(** numpy's [_quantile] with the default linear method (numpy 1.22 and
    later) on an array that is not empty: the virtual index is
    [(n - 1) * quantile]; at or above [n - 1] both neighbours are the last
    value of the sorted array and the index taken off the virtual one is
    [-1]; the neighbours are interpolated by [_lerp]; an array that holds a
    [nan] has the quantile [nan]. *)
Definition quantile (a : list float) (quantiles : float) : float :=
  let sorted := merge_sort sorts_before a in
  let last := (length a - 1)%nat in
  let virtual_index := of_nat last * quantiles in
  let previous_index := Z.to_nat (floor virtual_index) in
  let gamma := virtual_index - of_nat previous_index in
  let top := nth last sorted nan in
  if is_nan top then top
  else if of_nat last <=? virtual_index
  then lerp top top (virtual_index + 1)
  else lerp (nth previous_index sorted nan)
            (nth (previous_index + 1) sorted nan) gamma.

(** [np.percentile(a, q)] on a one-dimensional array: [q / 100] outside
    [0, 1] raises [ValueError], an empty array [IndexError]. *)
Definition percentile (a : list float) (q : float) : result float :=
  let quantiles := q / 100 in
  if negb ((0 <=? quantiles) && (quantiles <=? 1)) then Raise ValueError
  else
    match a with
    | [] => Raise IndexError
    | _ :: _ => Ok (quantile a quantiles)
    end.

Definition two_tailed_neuron_classification
    (resampled_df real_d_df : DataFrame) (neuron behavior_name : string)
    (high_tail low_tail : float) : result string :=
  obs_col ← getitem real_d_df neuron;
  d ← at_label (index real_d_df) obs_col (LStr "d");
  null_col ← getitem resampled_df neuron;
  high ← percentile null_col high_tail;
  above ← truth d (λ v, high <=? v);
  if (above : bool) then Ok behavior_name
  else
    obs_col ← getitem real_d_df neuron;
    d ← at_label (index real_d_df) obs_col (LStr "d");
    null_col ← getitem resampled_df neuron;
    low ← percentile null_col low_tail;
    below ← truth d (λ v, v <=? low);
    if (below : bool) then Ok ("Non-" +:+ behavior_name)
    else Ok "Not-selective"%string.

Definition classify_neurons_parametrically
    (dataframe resampled_df real_diff_df : DataFrame)
    (behavior_name : string) (high_tail low_tail : float) (threshold : Z)
    : result (gmap string string) :=
  classified_neurons ← event_count_filter dataframe threshold;
  for_each (column_names resampled_df)
    (fun neuron classified_neurons =>
       match classified_neurons !! neuron with
       | Some _ => Ok classified_neurons
       | None =>
           lab ← two_tailed_neuron_classification resampled_df real_diff_df
                   neuron behavior_name high_tail low_tail;
           Ok (<[neuron := lab]> classified_neurons)
       end)
    classified_neurons.
End Binary64.

(** ** The shuffle workers *)

(** What a call of [shuffle] can do: return, raise, or block for ever in
    [q.get()] because a worker died without putting its result. *)
Inductive outcome (A : Type) : Type :=
| Returned (a : A)
| Raised (e : exn)
| Blocked.
Arguments Returned {A} a.
Arguments Raised {A} e.
Arguments Blocked {A}.

(** Position of a column name in [df.columns]. *)
Fixpoint position_of (name : string) (names : list string) : option nat :=
  match names with
  | [] => None
  | c :: rest =>
      if String.eqb c name then Some O else S <$> position_of name rest
  end.

(** [Index.is_monotonic_increasing] and [Index.is_monotonic_decreasing] on
    column names: each name is at most, or at least, the one before it. *)
Fixpoint is_monotonic (le : string → string → bool) (names : list string)
    : bool :=
  match names with
  | c :: ((c' :: _) as rest) => le c c' && is_monotonic le rest
  | _ => true
  end.

Definition is_monotonic_increasing (names : list string) : bool :=
  is_monotonic String.leb names.

Definition is_monotonic_decreasing (names : list string) : bool :=
  is_monotonic (λ c c', String.leb c' c) names.

(** [Index.searchsorted(lbl, side)] on increasing names: the position at
    which [lbl] would be inserted, before ([side='left']) or after
    ([side='right']) the names equal to it. *)
Fixpoint searchsorted (names : list string) (lbl : string) (right : bool)
    : nat :=
  match names with
  | [] => 0%nat
  | c :: rest =>
      if (if right then String.leb c lbl else String.ltb c lbl)
      then S (searchsorted rest lbl right)
      else 0%nat
  end.

(** [Index._searchsorted_monotonic]: on decreasing names the search runs on
    the reversed index with the other side; an index that is neither
    increasing nor decreasing has no answer. *)
Definition searchsorted_monotonic (names : list string) (lbl : string)
    (right : bool) : option nat :=
  if is_monotonic_increasing names then Some (searchsorted names lbl right)
  else if is_monotonic_decreasing names
  then Some (length names - searchsorted (rev names) lbl (negb right))%nat
  else None.

(** [Index.get_slice_bound(lbl, side)]: the position of the label, one
    past it on the right side; a label that is not a column is placed by
    [searchsorted] where the names are sorted, and raises [KeyError] where
    they are not. *)
Definition get_slice_bound (names : list string) (lbl : string)
    (right : bool) : result nat :=
  match position_of lbl names with
  | Some i => Ok (if right then S i else i)
  | None =>
      match searchsorted_monotonic names lbl right with
      | Some i => Ok i
      | None => Raise KeyError
      end
  end.

(** The bounds [(start, stop)] of the label slice [first_col:last_col]: the
    columns at the positions [start, ..., stop - 1]. *)
Definition slice_bounds (df : DataFrame) (first_col last_col : string)
    : result (nat * nat) :=
  start ← get_slice_bound (column_names df) first_col false;
  stop ← get_slice_bound (column_names df) last_col true;
  Ok (start, stop).

Definition in_slice (bounds : nat * nat) (k : nat) : bool :=
  (bounds.1 <=? k)%nat && (k <? bounds.2)%nat.

(** The rows of a column taken in the given order: what
    [.sample(frac=1).reset_index(drop=True)] leaves at positions 0, 1, ... *)
Definition take_rows (order : list nat) (vs : list Q) : list Q :=
  map (fun i => nth i vs 0) order.

(** [df.loc[:, first_col:last_col] = df.loc[:, first_col:last_col]
      .sample(frac=1).reset_index(drop=True)]
    on a frame that carries the default [RangeIndex]: the columns of the
    slice get their rows in the sampled order, the other columns are not
    touched. *)
Definition permute_block (df : DataFrame) (bounds : nat * nat)
    (order : list nat) : DataFrame :=
  mkFrame (index df)
    (imap (fun k col =>
             if in_slice bounds k then (col.1, take_rows order col.2)
             else col)
          (columns df)).

(** [pd.DataFrame(columns=names)] *)
Definition empty_frame (names : list string) : DataFrame :=
  mkFrame [] (map (fun c => (c, [])) names).

(** [df.loc[i] = row] for a row label [i] that is new: the frame grows by
    one row; a row of the wrong width raises [ValueError]. *)
Definition append_row (df : DataFrame) (i : nat) (row : list Q)
    : result DataFrame :=
  if decide (length row = length (columns df))
  then Ok (mkFrame (index df ++ [LInt (Z.of_nat i)])
             (zip_with (fun col v => (col.1, col.2 ++ [v])) (columns df) row))
  else Raise ValueError.

(** [pd.concat(frames, ignore_index=True)] of frames with the same columns. *)
Definition concat (frames : list DataFrame) : result DataFrame :=
  match frames with
  | [] => Raise ValueError
  | f :: _ =>
      Ok (mkFrame
            (range_index (length (flat_map index frames)))
            (map (fun col =>
                    (col.1,
                     flat_map (fun fr => default [] (assoc col.1 (columns fr)))
                       frames))
                 (columns f)))
  end.

(** The frame whose rows are [rows], in order, under the default index. *)
Definition frame_of_rows (names : list string) (rows : list (list Q))
    : DataFrame :=
  mkFrame (range_index (length rows))
    (imap (λ c name, (name, map (λ row, nth c row 0) rows)) names).

(** The successive contents of a table whose block is overwritten with its
    rows in the first order, then with the rows of the result in the second
    order, and so on. *)
Fixpoint tables_seen (table : DataFrame) (bounds : nat * nat)
    (orders : list (list nat)) : list DataFrame :=
  match orders with
  | [] => []
  | order :: rest =>
      let table' := permute_block table bounds order in
      table' :: tables_seen table' bounds rest
  end.

Section Shuffle.
(** The pseudo-random generator behind [.sample(frac=1)]: from a generator
    state and a row count, the order in which the rows are drawn and the
    next state. *)
Context {rng : Type}.
Variable sample_order : rng → nat → list nat * rng.

(** [au.compute_diff_rate], which is not part of these sources: one value
    per neuron from the combined table, the activity table and two
    behaviors. *)
Variable compute_diff_rate :
  DataFrame → DataFrame → string → string → list Q.

(** The first [k] orders the generator gives for tables of [n] rows. *)
Fixpoint drawn_orders (g : rng) (n k : nat) : list (list nat) :=
  match k with
  | O => []
  | S k' =>
      (sample_order g n).1 :: drawn_orders (sample_order g n).2 n k'
  end.

(** The objects a worker's loop updates. *)
Record worker_state : Type := mkState {
  neuron_and_behavior_df : DataFrame;
  generator : rng;
  shuffled_df : DataFrame
}.

(** One iteration of the loop of [shuffle_worker]: the combined table is
    overwritten with its permuted self, then handed to
    [compute_diff_rate]. *)
Definition shuffle_iteration (neuron_activity_df : DataFrame)
    (behavior1 behavior2 first_col last_col : string)
    (i : nat) (st : worker_state) : result worker_state :=
  bounds ← slice_bounds (neuron_and_behavior_df st) first_col last_col;
  let '(order, g) :=
    sample_order (generator st)
      (length (index (neuron_and_behavior_df st))) in
  let table := permute_block (neuron_and_behavior_df st) bounds order in
  sh ← append_row (shuffled_df st) i
         (compute_diff_rate table neuron_activity_df behavior1 behavior2);
  Ok (mkState table g sh).

(** [columns[0]] and [columns[len(columns)-1]] *)
Definition first_and_last (names : list string) : result (string * string) :=
  match names !! 0%nat, last names with
  | Some c, Some c' => Ok (c, c')
  | _, _ => Raise IndexError
  end.

(** The worker up to [q.put]: the state it ends in. *)
Definition shuffle_worker_run (g : rng) (num_of_experiments : Z)
    (neuron_activity_df neuron_and_behavior_df : DataFrame)
    (behavior1 behavior2 : string) : result worker_state :=
  ends ← first_and_last (column_names neuron_activity_df);
  for_each (seq 0 (Z.to_nat num_of_experiments))
    (shuffle_iteration neuron_activity_df behavior1 behavior2
       ends.1 ends.2)
    (mkState neuron_and_behavior_df g
       (empty_frame (column_names neuron_activity_df))).

(** [shuffle_worker]: the frame it puts on the queue. *)
Definition shuffle_worker (g : rng) (num_of_experiments : Z)
    (neuron_activity_df neuron_and_behavior_df : DataFrame)
    (behavior1 behavior2 : string) : result DataFrame :=
  st ← shuffle_worker_run g num_of_experiments neuron_activity_df
         neuron_and_behavior_df behavior1 behavior2;
  Ok (shuffled_df st).

(** [shuffle] on a machine with [cpu_count] cores.  Worker [w] starts from
    the generator state [seeds w] and works on its own copy of the tables;
    [arrival] is the order in which the workers reach [q.put].  The
    orchestrator takes [cpu_count] frames from the queue, and blocks when
    there are fewer. *)
Definition shuffle (cpu_count : nat) (seeds : nat → rng)
    (arrival : list nat) (total_experiments : Z)
    (neuron_and_behavior_df neuron_activity_df : DataFrame)
    (behavior1 behavior2 : string) : outcome DataFrame :=
  match cpu_count with
  | O => Raised ZeroDivisionError
  | S _ =>
      let experiments_per_worker :=
        (total_experiments / Z.of_nat cpu_count)%Z in
      let queue :=
        omap (fun w =>
                match shuffle_worker (seeds w) experiments_per_worker
                        neuron_activity_df neuron_and_behavior_df
                        behavior1 behavior2 with
                | Ok df => Some df
                | Raise _ => None
                end)
             arrival in
      if (length queue <? cpu_count)%nat then Blocked
      else
        match concat (take cpu_count queue) with
        | Ok df => Returned df
        | Raise e => Raised e
        end
  end.



End Shuffle.

(** ** The data selection of the plotting client ([gui/client.py]) *)

(** [s.replace(c, '')] for a one-character [c]. *)
Fixpoint remove_char (c : ascii) (s : string) : string :=
  match s with
  | EmptyString => EmptyString
  | String a rest =>
      if Ascii.eqb a c then remove_char c rest
      else String a (remove_char c rest)
  end.

(** [s.split(sep)] for a one-character [sep]: the pieces between the
    separators, empty pieces included; the empty string gives one empty
    piece. *)
Fixpoint split_char (sep : ascii) (s : string) : list string :=
  match s with
  | EmptyString => [EmptyString]
  | String a rest =>
      if Ascii.eqb a sep then EmptyString :: split_char sep rest
      else
        match split_char sep rest with
        | piece :: pieces => String a piece :: pieces
        | [] => [String a EmptyString]
        end
  end.

(** [DataGen.parse_data_selection]: the new value of [self.neurons]. *)
Definition parse_data_selection (neurons : string) : list string :=
  split_char "," (remove_char " " neurons).

(** [DataGen.filter_epochs]: the loop appends the intervals that are long
    enough. *)
Definition filter_epochs (interval_series : list (list Z))
    (framerate seconds : Z) : list (list Z) :=
  foldl (λ intervals interval,
           if (framerate * seconds <=? Z.of_nat (length interval))%Z
           then intervals ++ [interval]
           else intervals)
        [] interval_series.

(** The number of occurrences of a character. *)
Fixpoint count_char (c : ascii) (s : string) : nat :=
  match s with
  | EmptyString => 0
  | String a rest =>
      if Ascii.eqb a c then S (count_char c rest) else count_char c rest
  end.

(** Two tables with the same row index, the same column names in the same
    order, and in each column the same values up to their order. *)
Definition same_marginals (t0 t : DataFrame) : Prop :=
  index t = index t0
  ∧ Forall2 (λ c0 c, c.1 = c0.1 ∧ c.2 ≡ₚ c0.2) (columns t0) (columns t).

(** ** Sample inputs *)

Module Samples.
(** One neuron with a single event, far below the default threshold. *)
Definition quiet_activity : DataFrame :=
  mkFrame (range_index 3) [("n0"%string, [0; 0; 1])].

(** A null table without rows: what [shuffle] returns when fewer
    resamples are asked for than there are cores. *)
Definition no_resamples : DataFrame :=
  mkFrame [] [("n0"%string, [])].

Definition observed_d : DataFrame :=
  mkFrame [LStr "d"] [("n0"%string, [2])].

(** The same observed row under the default row label [0]. *)
Definition observed_0 : DataFrame :=
  mkFrame [LInt 0] [("n0"%string, [2])].

(** An observed row computed only for other neurons. *)
Definition observed_other : DataFrame :=
  mkFrame [LStr "d"] [("n1"%string, [2])].


Definition null_4 : DataFrame :=
  mkFrame (range_index 4) [("n0"%string, [1; -5; 6; 3])].

Definition busy_activity : DataFrame :=
  mkFrame (range_index 3) [("n0"%string, [1; 2; 3])].

(** The activity of [busy_activity] next to one behavior column. *)
Definition combined : DataFrame :=
  mkFrame (range_index 3)
    [("n0"%string, [1; 2; 3]); ("open"%string, [1; 0; 0])].

(** A combined table whose column names are neither increasing nor
    decreasing. *)
Definition unsorted_combined : DataFrame :=
  mkFrame (range_index 3)
    [("n0"%string, [1; 2; 3]); ("open"%string, [1; 0; 0]);
     ("closed"%string, [0; 1; 1])].

(** An activity table whose neuron is in neither combined table. *)
Definition stray_activity : DataFrame :=
  mkFrame (range_index 3) [("n9"%string, [1; 2; 3])].

(** A generator that always draws the rows last to first. *)
Definition reversing (g : unit) (n : nat) : list nat * unit :=
  (rev (seq 0 n), g).

(** A statistic that reads the first row of each activity column. *)
Definition first_row (table activity : DataFrame) (b1 b2 : string)
    : list Q :=
  map (λ c, nth 0 (default [] (assoc c (columns table))) 0)
    (column_names activity).
End Samples.

Module Samples64.
Import Binary64.
Local Open Scope float_scope.

Definition busy_activity : DataFrame :=
  mkFrame (range_index 3) [("n0"%string, [1; 2; 3])].

(** Two busy neurons, of which the null tables below have only the first. *)
Definition two_neurons : DataFrame :=
  mkFrame (range_index 3)
    [("n0"%string, [1; 2; 3]); ("n1"%string, [4; 5; 6])].

Definition observed_1 : DataFrame :=
  mkFrame [LStr "d"] [("n0"%string, [1])].

Definition observed_3 : DataFrame :=
  mkFrame [LStr "d"] [("n0"%string, [3])].

Definition observed_minus_5 : DataFrame :=
  mkFrame [LStr "d"] [("n0"%string, [-5])].

(** Forty resamples, three of them as extreme as an observed 1. *)
Definition null_40 : DataFrame :=
  mkFrame (range_index 40)
    [("n0"%string, replicate 3 1 ++ replicate 37 0)].

(** 364 resamples, 273 of them as extreme as an observed 1. *)
Definition null_364 : DataFrame :=
  mkFrame (range_index 364)
    [("n0"%string, replicate 273 1 ++ replicate 91 0)].

(** 49 resamples, all as extreme as an observed 1. *)
Definition null_49 : DataFrame :=
  mkFrame (range_index 49) [("n0"%string, replicate 49 1)].

Definition null_steps : DataFrame :=
  mkFrame (range_index 4) [("n0"%string, [0; 10; 20; 30])].

(** A null column with two values as far from 0 as an observed -5. *)
Definition null_tie : DataFrame :=
  mkFrame (range_index 4) [("n0"%string, [1; -5; 5; 3])].
End Samples64.

(** * Properties *)

(** ** Notions used in the statements *)

Global Instance Qeq_rel_dec : RelDecision Qeq := Qeq_dec.

Global Instance Qle_transitive : Transitive Qle := Qle_trans.

Global Instance Qle_total : Total Qle.
Proof.
  intros x y. destruct (Qlt_le_dec x y) as [H|H]; [left|right]; [|done].
  by apply Qlt_le_weak.
Qed.

(** The null values at least as extreme as the observed one. *)
Definition as_extreme (d_hat : Q) (col : list Q) : list Q :=
  filter (λ v, Qabs d_hat <= Qabs v) col.

(** The number of nonzero samples of a signal. *)
Definition event_count (col : list Q) : nat :=
  length (filter (λ v, ¬ v == 0) col).

(** A neuron the event-count filter removes. *)
Definition below_threshold (dataframe : DataFrame) (threshold : Z)
    (neuron : string) : Prop :=
  ∃ col, assoc neuron (columns dataframe) = Some col
         ∧ (Z.of_nat (event_count col) < threshold)%Z.

Global Instance below_threshold_dec dataframe threshold neuron :
  Decision (below_threshold dataframe threshold neuron).
Proof.
  unfold below_threshold.
  destruct (assoc neuron (columns dataframe)) as [col|].
  - destruct (decide (Z.of_nat (event_count col) < threshold)%Z).
    + left. eauto.
    + right. intros (col' & [= <-] & ?). done.
  - right. by intros (col' & [=] & ?).
Defined.

(** The same notions over binary64 cells. *)
Definition as_extreme_binary64 (d_hat : float) (col : list float)
    : list float :=
  filter (λ v, PrimFloat.leb (PrimFloat.abs d_hat) (PrimFloat.abs v) = true)
    col.

Definition event_count_binary64 (col : list float) : nat :=
  length (filter (λ v, PrimFloat.eqb v 0%float = false) col).

Definition below_threshold_binary64 (dataframe : Binary64.DataFrame)
    (threshold : Z) (neuron : string) : Prop :=
  ∃ col, assoc neuron (Binary64.columns dataframe) = Some col
         ∧ (Z.of_nat (event_count_binary64 col) < threshold)%Z.

Global Instance below_threshold_binary64_dec dataframe threshold neuron :
  Decision (below_threshold_binary64 dataframe threshold neuron).
Proof.
  unfold below_threshold_binary64.
  destruct (assoc neuron (Binary64.columns dataframe)) as [col|].
  - destruct (decide (Z.of_nat (event_count_binary64 col) < threshold)%Z).
    + left. eauto.
    + right. intros (col' & [= <-] & ?). done.
  - right. by intros (col' & [=] & ?).
Defined.

(** A tail that [np.percentile] accepts: [q / 100] lies in [0, 1]. *)
Definition valid_tail (q : float) : Prop :=
  (PrimFloat.leb 0 (q / 100) && PrimFloat.leb (q / 100) 1)%float = true.

(** ** Frames and loops *)

Lemma boolean_index_map {A : Type} (f : A → bool) (P : A → Prop)
    `{!∀ v, Decision (P v)} (col : list A) :
  (∀ v, f v = true ↔ P v) →
  boolean_index col (map f col) = filter P col.
Proof.
  intros Hf. induction col as [|v col IH]; [done|].
  cbn [map boolean_index]. rewrite filter_cons, IH.
  destruct (f v) eqn:E; case_decide as HP; try done.
  - apply Hf in E. contradiction.
  - apply Hf in HP. congruence.
Qed.

Lemma assoc_is_Some {A : Type} (name : string) (cols : list (string * A)) :
  name ∈ cols.*1 ↔ is_Some (assoc name cols).
Proof.
  induction cols as [|[c vs] cols IH]; cbn.
  - split; [by intros ?%elem_of_nil | by intros [? ?]].
  - destruct (String.eqb_spec c name) as [->|Hne].
    + split; [by eauto | intros _; apply list_elem_of_here].
    + rewrite <- IH, elem_of_cons. cbn. split; [intros [?|?]; done | by right].
Qed.

Lemma getitem_Ok (df : DataFrame) (name : string) (col : list Q) :
  assoc name (columns df) = Some col → getitem df name = Ok col.
Proof. unfold getitem. by intros ->. Qed.

Lemma getitem_column (df : DataFrame) (name : string) :
  name ∈ column_names df → ∃ col, assoc name (columns df) = Some col.
Proof. intros H. by apply assoc_is_Some in H as [col ?]; eauto. Qed.

Lemma inject_nat_nonzero (n : nat) :
  ¬ inject_Z (Z.of_nat (S n)) == 0.
Proof.
  intros H. unfold Qeq in H. cbn in H. lia.
Qed.

(** The value [compute_two_side_p_val] computes, when it computes one. *)
Lemma compute_two_side_p_val_eq (resampled_df original_D_hat_df : DataFrame)
    (neuron : string) (col rest : list Q) (d_hat : Q) :
  index resampled_df ≠ [] →
  assoc neuron (columns resampled_df) = Some col →
  assoc neuron (columns original_D_hat_df) = Some (d_hat :: rest) →
  compute_two_side_p_val resampled_df original_D_hat_df neuron
  = Ok (1 / inject_Z (Z.of_nat (length (index resampled_df)))
        * inject_Z (Z.of_nat (length (as_extreme d_hat col)))).
Proof.
  intros Hrows Hcol Hobs. unfold compute_two_side_p_val, loc_col.
  destruct (index resampled_df) as [|l idx] eqn:Hidx; [done|].
  rewrite (getitem_Ok _ _ _ Hcol), (getitem_Ok _ _ _ Hobs). cbn.
  rewrite (boolean_index_map _ (λ v, Qabs d_hat <= Qabs v)); [done|].
  intros v. apply Qle_bool_iff.
Qed.

Lemma as_extreme_mono (d1 d2 : Q) (col : list Q) :
  Qabs d1 <= Qabs d2 →
  (length (as_extreme d2 col) <= length (as_extreme d1 col))%nat.
Proof.
  intros Hle. unfold as_extreme.
  induction col as [|v col IH]; [done|].
  rewrite !filter_cons.
  destruct (decide (Qabs d2 <= Qabs v)) as [H2|H2];
    destruct (decide (Qabs d1 <= Qabs v)) as [H1|H1]; cbn; try lia.
  exfalso. apply H1. by apply Qle_trans with (Qabs d2).
Qed.

(** ** The two-sided p-value *)

(** C7. On a null table without rows [compute_two_side_p_val] raises (the
    division [1 / len(resampled_df.index)] fails first, whatever the other
    arguments are) and so returns no number. *)
Theorem compute_two_side_p_val_empty
    (resampled_df original_D_hat_df : DataFrame) (neuron : string) :
  index resampled_df = [] →
  compute_two_side_p_val resampled_df original_D_hat_df neuron
  = Raise ZeroDivisionError
  ∧ ∀ p, compute_two_side_p_val resampled_df original_D_hat_df neuron ≠ Ok p.
Proof.
  intros Hrows. unfold compute_two_side_p_val. rewrite Hrows. by cbn.
Qed.

(** C9. For a fixed null table with at least one row and a neuron among its
    columns, a larger absolute observed value never gives a larger
    p-value. *)
Theorem compute_two_side_p_val_monotone
    (resampled_df observed1 observed2 : DataFrame) (neuron : string)
    (col rest1 rest2 : list Q) (d1 d2 : Q) :
  index resampled_df ≠ [] →
  assoc neuron (columns resampled_df) = Some col →
  assoc neuron (columns observed1) = Some (d1 :: rest1) →
  assoc neuron (columns observed2) = Some (d2 :: rest2) →
  Qabs d1 <= Qabs d2 →
  ∃ p1 p2,
    compute_two_side_p_val resampled_df observed1 neuron = Ok p1
    ∧ compute_two_side_p_val resampled_df observed2 neuron = Ok p2
    ∧ p2 <= p1.
Proof.
  intros Hrows Hcol H1 H2 Hle. do 2 eexists. split; [|split].
  - by eapply compute_two_side_p_val_eq.
  - by eapply compute_two_side_p_val_eq.
  - apply Qmult_le_l.
    + destruct (index resampled_df) as [|l idx]; [done|].
      apply Qlt_shift_div_l; [|by cbn].
      unfold Qlt. cbn. lia.
    + rewrite <- Zle_Qle. apply Nat2Z.inj_le. by apply as_extreme_mono.
Qed.

(** ** The label dictionary through a loop *)

(** A loop whose body leaves a labelled neuron alone and gives an unlabelled
    one the label [g] has for it, if any.  The body need only behave so on
    dictionaries that kept the entries the loop started with. *)
Lemma for_each_labels
    (body : string → gmap string string → result (gmap string string))
    (g : string → option string) (l : list string)
    (m0 : gmap string string) :
  (∀ k m, k ∈ l → (∀ j, is_Some (m0 !! j) → is_Some (m !! j)) →
     body k m = Ok (match m !! k with
                    | Some _ => m
                    | None => match g k with
                              | Some v => <[k := v]> m
                              | None => m
                              end
                    end)) →
  ∃ m', for_each l body m0 = Ok m'
        ∧ ∀ k, m' !! k = match m0 !! k with
                          | Some v => Some v
                          | None => if decide (k ∈ l) then g k else None
                          end.
Proof.
  revert m0. induction l as [|x l IH]; intros m0 Hbody.
  - exists m0. split; [done|]. intros k. destruct (m0 !! k); [done|].
    case_decide as Hin; [by apply elem_of_nil in Hin | done].
  - cbn [for_each]. rewrite Hbody; [|apply list_elem_of_here | done].
    cbn. set (m1 := match m0 !! x with Some _ => m0 | None => _ end).
    assert (Hkeep : ∀ j, is_Some (m0 !! j) → is_Some (m1 !! j)).
    { intros j Hj. subst m1. destruct (m0 !! x); [done|].
      destruct (g x); [|done].
      destruct (decide (x = j)) as [->|Hne];
        [rewrite lookup_insert_eq; eauto | by rewrite lookup_insert_ne]. }
    destruct (IH m1) as (m' & Hrun & Hm').
    { intros k m Hk Hm. apply Hbody; [by apply list_elem_of_further|].
      intros j Hj. by apply Hm, Hkeep. }
    exists m'. split; [done|]. intros k. rewrite Hm'. subst m1.
    destruct (decide (k = x)) as [->|Hne].
    + destruct (m0 !! x) eqn:E0; [by rewrite E0|].
      destruct (decide (x ∈ x :: l)) as [_|Hn];
        [|exfalso; apply Hn, list_elem_of_here].
      destruct (g x) eqn:Eg.
      * by rewrite lookup_insert_eq.
      * rewrite E0. by case_decide.
    + assert (Hmem : k ∈ x :: l ↔ k ∈ l).
      { rewrite elem_of_cons. split; [intros [?|?]; done | by right]. }
      assert (Hlook : match m0 !! x with
                      | Some _ => m0
                      | None => match g x with
                                | Some v => <[x := v]> m0
                                | None => m0
                                end
                      end !! k = m0 !! k).
      { destruct (m0 !! x); [done|]. destruct (g x); [|done].
        by rewrite lookup_insert_ne. }
      rewrite Hlook. destruct (m0 !! k); [done|].
      destruct (decide (k ∈ l)) as [Hl|Hl];
        destruct (decide (k ∈ x :: l)) as [Hxl|Hxl]; try done.
      * exfalso. by apply Hxl, Hmem.
      * exfalso. by apply Hl, Hmem.
Qed.

Lemma get_num_of_events_Ok (dataframe : DataFrame) (neuron : string)
    (col : list Q) :
  assoc neuron (columns dataframe) = Some col →
  get_num_of_events dataframe neuron = Ok (event_count col).
Proof.
  intros Hcol. unfold get_num_of_events, loc_col.
  rewrite (getitem_Ok _ _ _ Hcol). cbn.
  rewrite (boolean_index_map _ (λ v, ¬ v == 0)); [done|].
  intros v. rewrite negb_true_iff, <- not_true_iff_false.
  by rewrite Qeq_bool_iff.
Qed.

(** The first loop never raises; it labels exactly the neurons below the
    threshold. *)
Lemma event_count_filter_spec (dataframe : DataFrame) (threshold : Z) :
  ∃ m, event_count_filter dataframe threshold = Ok m
       ∧ ∀ k, m !! k = if decide (below_threshold dataframe threshold k)
                       then Some "unclassified"%string else None.
Proof.
  unfold event_count_filter.
  destruct (for_each_labels
    (λ neuron classified_neurons,
       n ← get_num_of_events dataframe neuron;
       if (Z.of_nat n <? threshold)%Z
       then Ok (set_if_absent neuron "unclassified" classified_neurons)
       else Ok classified_neurons)
    (λ k, if decide (below_threshold dataframe threshold k)
          then Some "unclassified"%string else None)
    (column_names dataframe) ∅) as (m & Hrun & Hm).
  - intros k m Hk _. destruct (getitem_column _ _ Hk) as [col Hcol].
    rewrite (get_num_of_events_Ok _ _ _ Hcol). cbn. unfold set_if_absent.
    destruct (Z.ltb_spec (Z.of_nat (event_count col)) threshold) as [Hlt|Hge].
    + rewrite decide_True by (exists col; done). done.
    + rewrite decide_False; [by destruct (m !! k)|].
      intros (col' & Hcol' & Hlt). rewrite Hcol in Hcol'.
      injection Hcol' as <-. lia.
  - exists m. split; [done|]. intros k. rewrite Hm, lookup_empty.
    case_decide as Hin; [done|]. case_decide as Hb; [|done].
    destruct Hb as (col & Hcol & _). exfalso. apply Hin.
    apply assoc_is_Some. eauto.
Qed.


Lemma at_label_d {A : Type} (vs : list A) :
  at_label [LStr "d"] vs (LStr "d") = (v ← values_at vs 0; Ok (Scalar v)).
Proof. unfold at_label. cbn [positions_of]. by rewrite decide_True. Qed.

Lemma at_label_missing {A : Type} (lbl : label) (vs : list A) :
  lbl ≠ LStr "d" → at_label [lbl] vs (LStr "d") = Raise KeyError.
Proof.
  intros Hne. unfold at_label. cbn [positions_of]. by rewrite decide_False.
Qed.


(** ** The two strategies *)

Lemma two_tailed_neuron_classification_KeyError
    (resampled_df real_d_df : DataFrame) (neuron behavior_name : string)
    (high_tail low_tail : Q) (lbl : label) :
  index real_d_df = [lbl] →
  lbl ≠ LStr "d" →
  two_tailed_neuron_classification resampled_df real_d_df neuron
    behavior_name high_tail low_tail = Raise KeyError.
Proof.
  intros Hidx Hne. unfold two_tailed_neuron_classification, getitem.
  destruct (assoc neuron (columns real_d_df)); [|done]. cbn.
  by rewrite Hidx, at_label_missing.
Qed.

(** The second loop of the parametric strategy stops at the first unlabelled
    neuron whose classification raises. *)
Lemma parametric_loop_raises (f : string → result string) (e : exn)
    (l : list string) (m : gmap string string) :
  (∀ k, k ∈ l → m !! k = None → f k = Raise e) →
  (∃ k, k ∈ l ∧ m !! k = None) →
  for_each l
    (λ neuron classified_neurons,
       match classified_neurons !! neuron with
       | Some _ => Ok classified_neurons
       | None => lab ← f neuron; Ok (<[neuron := lab]> classified_neurons)
       end) m
  = Raise e.
Proof.
  induction l as [|x l IH]; intros Hf (k & Hk & Hnone).
  - by apply elem_of_nil in Hk.
  - cbn [for_each]. destruct (m !! x) eqn:Ex; cbn.
    + apply IH.
      * intros j Hj. apply Hf. by apply list_elem_of_further.
      * exists k. split; [|done]. apply elem_of_cons in Hk as [->|Hk]; [|done].
        congruence.
    + rewrite (Hf x); [done | apply list_elem_of_here | done].
Qed.

(** C10. Let the observed table have one row whose label is not ['d'].
    Then [two_tailed_neuron_classification] raises [KeyError] for every
    neuron, and so does [classify_neurons_parametrically] as soon as the
    null table has a neuron the event-count filter did not remove; while
    [compute_two_side_p_val], which reads the row by position, returns for
    every neuron of a null table with rows the p-value of the value [d] in
    that row: [1 / rows] times the number of null values as extreme as
    [d]. *)
Theorem observed_row_label_shapes
    (resampled_df real_diff_df : DataFrame) (neuron : string) (lbl : label) :
  index real_diff_df = [lbl] →
  lbl ≠ LStr "d" →
  (∀ behavior_name high_tail low_tail,
     two_tailed_neuron_classification resampled_df real_diff_df neuron
       behavior_name high_tail low_tail = Raise KeyError)
  ∧ (∀ dataframe behavior_name high_tail low_tail threshold,
       neuron ∈ column_names resampled_df →
       ¬ below_threshold dataframe threshold neuron →
       classify_neurons_parametrically dataframe resampled_df real_diff_df
         behavior_name high_tail low_tail threshold = Raise KeyError)
  ∧ (∀ d col,
       index resampled_df ≠ [] →
       assoc neuron (columns resampled_df) = Some col →
       assoc neuron (columns real_diff_df) = Some [d] →
       compute_two_side_p_val resampled_df real_diff_df neuron
       = Ok (1 / inject_Z (Z.of_nat (length (index resampled_df)))
             * inject_Z (Z.of_nat (length (as_extreme d col))))).
Proof.
  intros Hidx Hne. split; [|split].
  - intros. by eapply two_tailed_neuron_classification_KeyError.
  - intros dataframe behavior_name high_tail low_tail threshold Hin Hkept.
    unfold classify_neurons_parametrically.
    destruct (event_count_filter_spec dataframe threshold) as (m1 & -> & Hm1).
    cbn. apply parametric_loop_raises.
    + intros. by eapply two_tailed_neuron_classification_KeyError.
    + exists neuron. split; [done|]. by rewrite Hm1, decide_False.
  - intros d col Hrows Hcol Hd. by eapply compute_two_side_p_val_eq.
Qed.

(** A loop whose body never changes an entry keeps the entries it starts
    with. *)
Lemma for_each_keeps
    (body : string → gmap string string → result (gmap string string))
    (l : list string) (m m' : gmap string string) (j v : string) :
  (∀ k m1 m2, body k m1 = Ok m2 → m1 !! j = Some v → m2 !! j = Some v) →
  for_each l body m = Ok m' →
  m !! j = Some v → m' !! j = Some v.
Proof.
  intros Hbody. revert m. induction l as [|x l IH]; intros m; cbn.
  - by intros [= <-].
  - destruct (body x m) as [m1|e] eqn:Ex; [|done]. cbn.
    intros Hrun Hj. apply (IH m1 Hrun). by eapply Hbody.
Qed.

Lemma set_if_absent_keeps (k lab j v : string) (m : gmap string string) :
  m !! j = Some v → set_if_absent k lab m !! j = Some v.
Proof.
  intros Hj. unfold set_if_absent. destruct (m !! k) eqn:Ek; [done|].
  rewrite lookup_insert_ne; [done|]. congruence.
Qed.

(** What both strategies do keep of the filter: whenever either returns a
    dictionary, a neuron below the threshold is ["unclassified"] in it. *)
Lemma filtered_neuron_unclassified
    (dataframe resampled_df real_diff_df : DataFrame) (threshold : Z)
    (neuron : string) (m : gmap string string) :
  below_threshold dataframe threshold neuron →
  (∀ p_value,
     classify_neurons_non_parametrically dataframe resampled_df real_diff_df
       p_value threshold = Ok m →
     m !! neuron = Some "unclassified"%string)
  ∧ (∀ behavior_name high_tail low_tail,
       classify_neurons_parametrically dataframe resampled_df real_diff_df
         behavior_name high_tail low_tail threshold = Ok m →
       m !! neuron = Some "unclassified"%string).
Proof.
  intros Hbelow.
  destruct (event_count_filter_spec dataframe threshold) as (m1 & Hm1 & Hl).
  specialize (Hl neuron). rewrite decide_True in Hl by done.
  split.
  - intros p_value. unfold classify_neurons_non_parametrically.
    rewrite Hm1. cbn. intros Hrun.
    eapply for_each_keeps; [|exact Hrun|exact Hl].
    intros k ma mb Hbody Hj. cbn in Hbody.
    destruct (compute_two_side_p_val resampled_df real_diff_df k); [|done].
    cbn in Hbody.
    destruct (Qle_bool a p_value); injection Hbody as <-;
      by apply set_if_absent_keeps.
  - intros behavior_name high_tail low_tail.
    unfold classify_neurons_parametrically. rewrite Hm1. cbn. intros Hrun.
    eapply for_each_keeps; [|exact Hrun|exact Hl].
    intros k ma mb Hbody Hj. cbn in Hbody.
    destruct (ma !! k) eqn:Ek; [by injection Hbody as <-|].
    destruct (two_tailed_neuron_classification _ _ _ _ _ _); [|done].
    cbn in Hbody. injection Hbody as <-.
    rewrite lookup_insert_ne; [done|]. congruence.
Qed.

(** C3. A neuron below the threshold, on two inputs: a null table without
    rows, and an observed row that lacks the neuron.  The parametric
    strategy labels it ["unclassified"] without evaluating it; the
    non-parametric strategy computes its p-value all the same and raises
    instead of returning the dictionary. *)
Theorem filtered_neuron_evaluated_non_parametrically :
  below_threshold Samples.quiet_activity default_threshold "n0"
  ∧ classify_neurons_parametrically Samples.quiet_activity
      Samples.no_resamples Samples.observed_d "Running" 95 5
      default_threshold
    = Ok {["n0"%string := "unclassified"%string]}
  ∧ classify_neurons_non_parametrically Samples.quiet_activity
      Samples.no_resamples Samples.observed_d default_p_value
      default_threshold
    = Raise ZeroDivisionError
  ∧ classify_neurons_parametrically Samples.quiet_activity
      Samples.null_4 Samples.observed_other "Running" 95 5
      default_threshold
    = Ok {["n0"%string := "unclassified"%string]}
  ∧ classify_neurons_non_parametrically Samples.quiet_activity
      Samples.null_4 Samples.observed_other default_p_value
      default_threshold
    = Raise KeyError.
Proof.
  split; [|by vm_compute].
  exists [0; 0; 1]. split; [done|]. by vm_compute.
Qed.

(** ** Degenerate null columns *)





(** ** The values in binary64 *)

Section Binary64Properties.
Local Open Scope float_scope.

Lemma getitem_Ok_binary64 (df : Binary64.DataFrame) (name : string)
    (col : list float) :
  assoc name (Binary64.columns df) = Some col →
  Binary64.getitem df name = Ok col.
Proof. unfold Binary64.getitem. by intros ->. Qed.

Lemma getitem_column_binary64 (df : Binary64.DataFrame) (name : string) :
  name ∈ Binary64.column_names df →
  ∃ col, assoc name (Binary64.columns df) = Some col.
Proof. intros H. by apply assoc_is_Some in H as [col ?]; eauto. Qed.

(** The value [compute_two_side_p_val] computes, when it computes one. *)
Lemma compute_two_side_p_val_eq_binary64
    (resampled_df original_D_hat_df : Binary64.DataFrame) (neuron : string)
    (col rest : list float) (d_hat : float) :
  Binary64.index resampled_df ≠ [] →
  assoc neuron (Binary64.columns resampled_df) = Some col →
  assoc neuron (Binary64.columns original_D_hat_df) = Some (d_hat :: rest) →
  Binary64.compute_two_side_p_val resampled_df original_D_hat_df neuron
  = Ok (1 / Binary64.of_nat (length (Binary64.index resampled_df))
        * Binary64.of_nat (length (as_extreme_binary64 d_hat col))).
Proof.
  intros Hrows Hcol Hobs.
  unfold Binary64.compute_two_side_p_val, Binary64.loc_col.
  destruct (Binary64.index resampled_df) as [|l idx] eqn:Hidx; [done|].
  rewrite (getitem_Ok_binary64 _ _ _ Hcol), (getitem_Ok_binary64 _ _ _ Hobs).
  cbn.
  by rewrite (boolean_index_map _
                (λ v, PrimFloat.leb (abs d_hat) (abs v) = true)).
Qed.

(** A value that compares equal also compares at most. *)
Lemma eqb_leb_binary64 (x y : float) : (x =? y) = true → (x <=? y) = true.
Proof.
  rewrite FloatAxioms.eqb_spec, FloatAxioms.leb_spec. unfold SFeqb, SFleb.
  by destruct (SFcompare (Prim2SF x) (Prim2SF y)) as [[| |]|].
Qed.

Lemma get_num_of_events_Ok_binary64 (dataframe : Binary64.DataFrame)
    (neuron : string) (col : list float) :
  assoc neuron (Binary64.columns dataframe) = Some col →
  Binary64.get_num_of_events dataframe neuron
  = Ok (event_count_binary64 col).
Proof.
  intros Hcol. unfold Binary64.get_num_of_events, Binary64.loc_col.
  rewrite (getitem_Ok_binary64 _ _ _ Hcol). cbn.
  rewrite (boolean_index_map _ (λ v, PrimFloat.eqb v 0 = false)); [done|].
  intros v. apply negb_true_iff.
Qed.

(** The first loop never raises; it labels exactly the neurons below the
    threshold. *)
Lemma event_count_filter_spec_binary64 (dataframe : Binary64.DataFrame)
    (threshold : Z) :
  ∃ m, Binary64.event_count_filter dataframe threshold = Ok m
       ∧ ∀ k, m !! k
              = if decide (below_threshold_binary64 dataframe threshold k)
                then Some "unclassified"%string else None.
Proof.
  unfold Binary64.event_count_filter.
  destruct (for_each_labels
    (λ neuron classified_neurons,
       n ← Binary64.get_num_of_events dataframe neuron;
       if (Z.of_nat n <? threshold)%Z
       then Ok (set_if_absent neuron "unclassified" classified_neurons)
       else Ok classified_neurons)
    (λ k, if decide (below_threshold_binary64 dataframe threshold k)
          then Some "unclassified"%string else None)
    (Binary64.column_names dataframe) ∅) as (m & Hrun & Hm).
  - intros k m Hk _. destruct (getitem_column_binary64 _ _ Hk) as [col Hcol].
    rewrite (get_num_of_events_Ok_binary64 _ _ _ Hcol). cbn.
    unfold set_if_absent.
    destruct (Z.ltb_spec (Z.of_nat (event_count_binary64 col)) threshold)
      as [Hlt|Hge].
    + rewrite decide_True by (exists col; done). done.
    + rewrite decide_False; [by destruct (m !! k)|].
      intros (col' & Hcol' & Hlt). rewrite Hcol in Hcol'.
      injection Hcol' as <-. lia.
  - exists m. split; [done|]. intros k. rewrite Hm, lookup_empty.
    case_decide as Hin; [done|]. case_decide as Hb; [|done].
    destruct Hb as (col & Hcol & _). exfalso. apply Hin.
    apply assoc_is_Some. eauto.
Qed.

Lemma percentile_Ok_binary64 (a : list float) (q : float) :
  a ≠ [] → valid_tail q →
  Binary64.percentile a q = Ok (Binary64.quantile a (q / 100)).
Proof.
  intros Ha Hq. unfold Binary64.percentile. unfold valid_tail in Hq.
  rewrite Hq. cbn [negb]. by destruct a.
Qed.

(** The label [two_tailed_neuron_classification] returns on a one-row
    observed table labelled ['d'] and a null column that is not empty. *)
Lemma two_tailed_neuron_classification_eq_binary64
    (resampled_df real_d_df : Binary64.DataFrame)
    (neuron behavior_name : string) (high_tail low_tail d : float)
    (rest null : list float) :
  Binary64.index real_d_df = [LStr "d"] →
  assoc neuron (Binary64.columns real_d_df) = Some (d :: rest) →
  assoc neuron (Binary64.columns resampled_df) = Some null →
  null ≠ [] →
  valid_tail high_tail →
  valid_tail low_tail →
  Binary64.two_tailed_neuron_classification resampled_df real_d_df neuron
    behavior_name high_tail low_tail
  = Ok (if Binary64.quantile null (high_tail / 100) <=? d
        then behavior_name
        else if d <=? Binary64.quantile null (low_tail / 100)
             then "Non-" +:+ behavior_name
             else "Not-selective"%string).
Proof.
  intros Hidx Hobs Hnull Hne Hh Hl.
  unfold Binary64.two_tailed_neuron_classification.
  rewrite (getitem_Ok_binary64 _ _ _ Hobs),
    (getitem_Ok_binary64 _ _ _ Hnull), Hidx.
  cbn [mbind result_bind].
  rewrite at_label_d. cbn [values_at lookup list_lookup mbind result_bind].
  rewrite (percentile_Ok_binary64 _ _ Hne Hh),
    (percentile_Ok_binary64 _ _ Hne Hl).
  cbn [mbind result_bind truth].
  destruct (Binary64.quantile null (high_tail / 100) <=? d); [done|].
  by destruct (d <=? Binary64.quantile null (low_tail / 100)).
Qed.

(** C1, as the code has it.  On a null table with at least one row, for a
    neuron that is one of its columns, [compute_two_side_p_val] returns the
    binary64 product [(1 / rows) * count]: the reciprocal of the number of
    rows, rounded, times the number of null values [v] with
    [|v| >= |observed|], rounded again.  A null value whose absolute value
    equals the observed one is among those counted. *)
Theorem compute_two_side_p_val_binary64
    (resampled_df original_D_hat_df : Binary64.DataFrame) (neuron : string)
    (col rest : list float) (d_hat : float) :
  Binary64.index resampled_df ≠ [] →
  assoc neuron (Binary64.columns resampled_df) = Some col →
  assoc neuron (Binary64.columns original_D_hat_df) = Some (d_hat :: rest) →
  Binary64.compute_two_side_p_val resampled_df original_D_hat_df neuron
  = Ok (1 / Binary64.of_nat (length (Binary64.index resampled_df))
        * Binary64.of_nat (length (as_extreme_binary64 d_hat col)))
  ∧ (∀ v, v ∈ as_extreme_binary64 d_hat col
          ↔ v ∈ col ∧ (abs d_hat <=? abs v) = true)
  ∧ ∀ v, v ∈ col → (abs d_hat =? abs v) = true →
         v ∈ as_extreme_binary64 d_hat col.
Proof.
  intros Hrows Hcol Hobs. split; [|split].
  - by eapply compute_two_side_p_val_eq_binary64.
  - intros v. unfold as_extreme_binary64. rewrite list_elem_of_filter.
    tauto.
  - intros v Hv Htie. unfold as_extreme_binary64. apply list_elem_of_filter.
    split; [|done]. by apply eqb_leb_binary64.
Qed.

(** C4, as the code has it.  When the null table has rows and the observed
    table has a value for each of its columns,
    [classify_neurons_non_parametrically] returns a dictionary in which a
    neuron that the event-count filter did not remove has no entry when it
    is not a column of the null table, and otherwise is ["selective"] when
    the binary64 product [(1 / rows) * count] of its p-value is at most
    [p_value], and ["not-selective"] when it is not. *)
Theorem classify_neurons_non_parametrically_binary64
    (dataframe resampled_df real_diff_df : Binary64.DataFrame)
    (p_value : float) (threshold : Z) (neuron : string) :
  Binary64.index resampled_df ≠ [] →
  (∀ c, c ∈ Binary64.column_names resampled_df →
        ∃ d rest, assoc c (Binary64.columns real_diff_df)
                  = Some (d :: rest)) →
  ¬ below_threshold_binary64 dataframe threshold neuron →
  ∃ m,
    Binary64.classify_neurons_non_parametrically dataframe resampled_df
      real_diff_df p_value threshold = Ok m
    ∧ (neuron ∉ Binary64.column_names resampled_df → m !! neuron = None)
    ∧ ∀ col d rest,
        assoc neuron (Binary64.columns resampled_df) = Some col →
        assoc neuron (Binary64.columns real_diff_df) = Some (d :: rest) →
        m !! neuron
        = Some (if 1 / Binary64.of_nat
                        (length (Binary64.index resampled_df))
                   * Binary64.of_nat (length (as_extreme_binary64 d col))
                   <=? p_value
                then "selective"%string else "not-selective"%string).
Proof.
  intros Hrows Hobs Hkept.
  assert (Hp : ∀ c, c ∈ Binary64.column_names resampled_df →
            ∃ p, Binary64.compute_two_side_p_val resampled_df real_diff_df c
                 = Ok p).
  { intros c Hc. destruct (Hobs c Hc) as (d & rest & Hd).
    destruct (getitem_column_binary64 _ _ Hc) as [col Hcol].
    eexists. by eapply compute_two_side_p_val_eq_binary64. }
  unfold Binary64.classify_neurons_non_parametrically.
  destruct (event_count_filter_spec_binary64 dataframe threshold)
    as (m1 & -> & Hm1).
  cbn [mbind result_bind].
  destruct (for_each_labels
    (λ neuron classified_neurons,
       p ← Binary64.compute_two_side_p_val resampled_df real_diff_df neuron;
       if p <=? p_value
       then Ok (set_if_absent neuron "selective" classified_neurons)
       else Ok (set_if_absent neuron "not-selective" classified_neurons))
    (λ k, match Binary64.compute_two_side_p_val resampled_df real_diff_df k
          with
          | Ok p => Some (if p <=? p_value then "selective"%string
                          else "not-selective"%string)
          | Raise _ => None
          end)
    (Binary64.column_names resampled_df) m1) as (m & Hrun & Hm).
  - intros k m Hk _. destruct (Hp k Hk) as [p ->]. cbn.
    unfold set_if_absent. by destruct (p <=? p_value), (m !! k).
  - exists m. split; [done|].
    specialize (Hm neuron). rewrite Hm1 in Hm.
    rewrite decide_False in Hm by done.
    split.
    + intros Hout. by rewrite Hm, decide_False.
    + intros col d rest Hcol Hd.
      rewrite decide_True in Hm by (apply assoc_is_Some; eauto).
      by rewrite (compute_two_side_p_val_eq_binary64 _ _ _ _ _ _
                    Hrows Hcol Hd) in Hm.
Qed.

(** C5, as the code has it.  On a one-row observed table labelled ['d']
    that has every column of the null table, null columns that are not
    empty and tails that [np.percentile] accepts,
    [classify_neurons_parametrically] returns a dictionary in which a
    neuron that the event-count filter did not remove has no entry when it
    is not a column of the null table, and otherwise the label chosen in
    this order: [behavior_name] when the observed value is at least the
    [high_tail] percentile of its null column (whatever the low tail says),
    else ["Non-" + behavior_name] when it is at most the [low_tail]
    percentile, else ["Not-selective"].  The percentile is the one numpy
    interpolates in binary64: with the null column sorted ([nan] last) and
    the position [(n - 1) * (q / 100)], it is [nan] when the column holds a
    [nan], and otherwise the two neighbours of the position combined as
    [lo + (hi - lo) * t], or [hi - (hi - lo) * (1 - t)] where [t >= 0.5],
    [t] being the position less its integer part. *)
Theorem classify_neurons_parametrically_binary64
    (dataframe resampled_df real_diff_df : Binary64.DataFrame)
    (behavior_name : string) (high_tail low_tail : float) (threshold : Z)
    (neuron : string) :
  Binary64.index real_diff_df = [LStr "d"] →
  (∀ c, c ∈ Binary64.column_names resampled_df →
        ∃ d rest, assoc c (Binary64.columns real_diff_df)
                  = Some (d :: rest)) →
  (∀ c null, assoc c (Binary64.columns resampled_df) = Some null →
             null ≠ []) →
  valid_tail high_tail →
  valid_tail low_tail →
  ¬ below_threshold_binary64 dataframe threshold neuron →
  ∃ m,
    Binary64.classify_neurons_parametrically dataframe resampled_df
      real_diff_df behavior_name high_tail low_tail threshold = Ok m
    ∧ (neuron ∉ Binary64.column_names resampled_df → m !! neuron = None)
    ∧ ∀ null d rest,
        assoc neuron (Binary64.columns resampled_df) = Some null →
        assoc neuron (Binary64.columns real_diff_df) = Some (d :: rest) →
        let sorted := merge_sort Binary64.sorts_before null in
        let last := (length null - 1)%nat in
        let combine lo hi t :=
          if 0.5 <=? t then hi - (hi - lo) * (1 - t)
          else lo + (hi - lo) * t in
        let percentile_of q :=
          let position := Binary64.of_nat last * (q / 100) in
          let below := Z.to_nat (Binary64.floor position) in
          if is_nan (nth last sorted nan) then nth last sorted nan
          else if Binary64.of_nat last <=? position
          then combine (nth last sorted nan) (nth last sorted nan)
                 (position + 1)
          else combine (nth below sorted nan) (nth (below + 1) sorted nan)
                 (position - Binary64.of_nat below) in
        m !! neuron
        = Some (if percentile_of high_tail <=? d then behavior_name
                else if d <=? percentile_of low_tail
                     then "Non-" +:+ behavior_name
                     else "Not-selective"%string).
Proof.
  intros Hidx Hobs Hnonempty Hhigh Hlow Hkept.
  assert (Hlab : ∀ c, c ∈ Binary64.column_names resampled_df →
    ∃ lab, Binary64.two_tailed_neuron_classification resampled_df
             real_diff_df c behavior_name high_tail low_tail = Ok lab).
  { intros c Hc. destruct (Hobs c Hc) as (d & rest & Hd).
    destruct (getitem_column_binary64 _ _ Hc) as [null Hnull].
    eexists.
    eapply two_tailed_neuron_classification_eq_binary64; eauto. }
  unfold Binary64.classify_neurons_parametrically.
  destruct (event_count_filter_spec_binary64 dataframe threshold)
    as (m1 & -> & Hm1).
  cbn [mbind result_bind].
  destruct (for_each_labels
    (λ neuron classified_neurons,
       match classified_neurons !! neuron with
       | Some _ => Ok classified_neurons
       | None =>
           lab ← Binary64.two_tailed_neuron_classification resampled_df
                   real_diff_df neuron behavior_name high_tail low_tail;
           Ok (<[neuron := lab]> classified_neurons)
       end)
    (λ k, match Binary64.two_tailed_neuron_classification resampled_df
                  real_diff_df k behavior_name high_tail low_tail with
          | Ok lab => Some lab
          | Raise _ => None
          end)
    (Binary64.column_names resampled_df) m1) as (m & Hrun & Hm).
  - intros k m Hk _. destruct (Hlab k Hk) as [lab ->]. cbn.
    by destruct (m !! k).
  - exists m. split; [done|].
    specialize (Hm neuron). rewrite Hm1 in Hm.
    rewrite decide_False in Hm by done.
    split.
    + intros Hout. by rewrite Hm, decide_False.
    + intros null d rest Hnull Hd.
      rewrite decide_True in Hm by (apply assoc_is_Some; eauto).
      rewrite (two_tailed_neuron_classification_eq_binary64 resampled_df
                 real_diff_df neuron behavior_name high_tail low_tail d rest
                 null) in Hm; eauto.
Qed.

End Binary64Properties.

(** ** The shuffle workers *)

Lemma permute_block_column_names (df : DataFrame) (bounds : nat * nat)
    (order : list nat) :
  column_names (permute_block df bounds order) = column_names df.
Proof.
  unfold column_names, permute_block. cbn [columns].
  apply list_eq. intros i.
  rewrite !list_lookup_fmap, list_lookup_imap.
  destruct (columns df !! i) as [col|]; [|done]. cbn.
  by destruct (in_slice bounds i).
Qed.


Lemma slice_bounds_permute_block (df : DataFrame) (bounds b : nat * nat)
    (order : list nat) (first_col last_col : string) :
  slice_bounds (permute_block df b order) first_col last_col
  = slice_bounds df first_col last_col.
Proof. unfold slice_bounds. by rewrite permute_block_column_names. Qed.

Lemma range_index_S (n : nat) :
  range_index (S n) = range_index n ++ [LInt (Z.of_nat n)].
Proof. unfold range_index. by rewrite seq_S, map_app. Qed.

Lemma append_row_frame_of_rows (names : list string) (rows : list (list Q))
    (row : list Q) :
  length row = length names →
  append_row (frame_of_rows names rows) (length rows) row
  = Ok (frame_of_rows names (rows ++ [row])).
Proof.
  intros Hwidth. unfold append_row, frame_of_rows. cbn [columns index].
  rewrite length_imap. rewrite decide_True by done. f_equal.
  rewrite length_app. cbn [length].
  replace (length rows + 1)%nat with (S (length rows)) by lia.
  rewrite range_index_S. f_equal.
  apply list_eq. intros i.
  rewrite lookup_zip_with, !list_lookup_imap.
  destruct (names !! i) as [name|] eqn:Ename; [|done]. cbn.
  destruct (row !! i) as [v|] eqn:Erow.
  - cbn. rewrite map_app. cbn. by rewrite nth_lookup, Erow.
  - apply lookup_ge_None in Erow. apply lookup_lt_Some in Ename. lia.
Qed.

Lemma tables_seen_length (table : DataFrame) (bounds : nat * nat)
    (orders : list (list nat)) :
  length (tables_seen table bounds orders) = length orders.
Proof.
  revert table. induction orders as [|o orders IH]; intros table; [done|].
  cbn. by rewrite IH.
Qed.



Lemma position_of_is_Some (name : string) (names : list string) :
  name ∈ names → is_Some (position_of name names).
Proof.
  induction names as [|c names IH]; [by intros ?%elem_of_nil|].
  cbn. intros Hin. destruct (String.eqb_spec c name) as [->|Hne]; [by eauto|].
  apply elem_of_cons in Hin as [->|Hin]; [done|].
  destruct (IH Hin) as [i ->]. by eauto.
Qed.

Lemma slice_bounds_Ok (df : DataFrame) (first_col last_col : string) :
  first_col ∈ column_names df → last_col ∈ column_names df →
  ∃ bounds, slice_bounds df first_col last_col = Ok bounds.
Proof.
  intros [i Hi]%position_of_is_Some [j Hj]%position_of_is_Some.
  unfold slice_bounds, get_slice_bound. rewrite Hi, Hj. by eauto.
Qed.

Lemma frame_of_rows_column_names (names : list string)
    (rows : list (list Q)) :
  column_names (frame_of_rows names rows) = names.
Proof.
  unfold column_names, frame_of_rows. cbn [columns].
  apply list_eq. intros i. rewrite list_lookup_fmap, list_lookup_imap.
  by destruct (names !! i).
Qed.

Lemma assoc_elem_of (name : string) (cols : list (string * list Q))
    (vs : list Q) :
  assoc name cols = Some vs → (name, vs) ∈ cols.
Proof.
  induction cols as [|[c ws] cols IH]; [done|]. cbn.
  destruct (String.eqb_spec c name) as [->|Hne].
  - intros [= ->]. apply list_elem_of_here.
  - intros H. by apply list_elem_of_further, IH.
Qed.

Lemma frame_of_rows_assoc (names : list string) (rows : list (list Q))
    (name : string) :
  name ∈ names →
  ∃ vs, assoc name (columns (frame_of_rows names rows)) = Some vs
        ∧ length vs = length rows.
Proof.
  intros Hin.
  destruct (getitem_column (frame_of_rows names rows) name) as [vs Hvs].
  { by rewrite frame_of_rows_column_names. }
  exists vs. split; [done|].
  apply assoc_elem_of in Hvs. unfold frame_of_rows in Hvs. cbn in Hvs.
  apply elem_of_lookup_imap in Hvs as (i & c & [= _ ->] & _).
  by rewrite length_map.
Qed.

(** [pd.concat] of frames that all have the columns [names] and [n] rows. *)
Lemma concat_frames (names : list string) (n : nat)
    (frames : list DataFrame) :
  Forall (λ fr, ∃ rows, fr = frame_of_rows names rows ∧ length rows = n)
    frames →
  (0 < length frames)%nat →
  ∃ table,
    concat frames = Ok table
    ∧ length (index table) = (length frames * n)%nat
    ∧ column_names table = names
    ∧ Forall (λ col, length col.2 = (length frames * n)%nat) (columns table).
Proof.
  intros Hframes Hpos.
  assert (Hsum : ∀ (f : DataFrame → list Q) (h : DataFrame → list label),
    (Forall (λ fr, length (f fr) = n) frames →
       length (flat_map f frames) = (length frames * n)%nat)
    ∧ (Forall (λ fr, length (h fr) = n) frames →
         length (flat_map h frames) = (length frames * n)%nat)).
  { intros f h. clear. split; intros H; induction H as [|fr l Hfr _ IH];
      cbn; try done; rewrite length_app, IH, Hfr; done. }
  destruct frames as [|f0 frames]; [cbn in Hpos; lia|].
  eexists. split; [done|]. cbn [index columns].
  assert (Hf0 : ∃ rows, f0 = frame_of_rows names rows ∧ length rows = n)
    by by inversion Hframes.
  destruct Hf0 as (rows0 & Hf0 & Hrows0).
  split; [|split].
  - cbn [index]. unfold range_index. rewrite length_map, length_seq.
    apply (Hsum (λ _, []) index).
    eapply Forall_impl; [exact Hframes|].
    intros fr (rows & -> & <-). cbn. unfold range_index.
    by rewrite length_map, length_seq.
  - unfold column_names. etransitivity; [|apply (frame_of_rows_column_names names rows0)].
    rewrite <- Hf0. unfold column_names. cbn [columns].
    apply list_eq. intros i.
    change (map ?f ?l) with (f <$> l). rewrite !list_lookup_fmap.
    by destruct (columns f0 !! i).
  - cbn [columns]. apply Forall_forall. intros col Hcol.
    change (map ?f ?l) with (f <$> l) in Hcol.
    apply list_elem_of_fmap in Hcol as (col0 & -> & Hcol0). cbn [snd].
    assert (Hname : col0.1 ∈ names).
    { rewrite <- (frame_of_rows_column_names names rows0), <- Hf0.
      unfold column_names. by apply list_elem_of_fmap_2. }
    apply (Hsum (λ fr, default [] (assoc col0.1 (columns fr))) index).
    eapply Forall_impl; [exact Hframes|].
    intros fr (rows & -> & <-).
    destruct (frame_of_rows_assoc names rows col0.1 Hname) as (vs & -> & Hvs).
    done.
Qed.

Lemma first_and_last_Ok (names : list string) :
  names ≠ [] →
  ∃ c c', first_and_last names = Ok (c, c') ∧ c ∈ names ∧ c' ∈ names.
Proof.
  intros Hne. unfold first_and_last.
  destruct names as [|c names]; [done|].
  destruct (last (c :: names)) as [c'|] eqn:El.
  - exists c, c'. split; [done|]. split; [apply list_elem_of_here|].
    by apply last_Some_elem_of.
  - by apply last_None in El.
Qed.

Section ShuffleProperties.
Context {rng : Type}.
Variable sample_order : rng → nat → list nat * rng.
Variable compute_diff_rate :
  DataFrame → DataFrame → string → string → list Q.

Lemma drawn_orders_length (g : rng) (n k : nat) :
  length (drawn_orders sample_order g n k) = k.
Proof.
  revert g. induction k as [|k IH]; intros g; [done|]. cbn. by rewrite IH.
Qed.

(** One iteration, on a result frame that holds [rows]. *)
Lemma shuffle_iteration_eq (neuron_activity_df table : DataFrame)
    (behavior1 behavior2 first_col last_col : string) (bounds : nat * nat)
    (names : list string) (g : rng) (rows : list (list Q)) :
  (∀ t, length (compute_diff_rate t neuron_activity_df behavior1 behavior2)
        = length names) →
  slice_bounds table first_col last_col = Ok bounds →
  let order := (sample_order g (length (index table))).1 in
  let table' := permute_block table bounds order in
  shuffle_iteration sample_order compute_diff_rate neuron_activity_df
    behavior1 behavior2 first_col last_col (length rows)
    (mkState table g (frame_of_rows names rows))
  = Ok (mkState table' (sample_order g (length (index table))).2
          (frame_of_rows names
             (rows ++ [compute_diff_rate table' neuron_activity_df
                         behavior1 behavior2]))).
Proof.
  intros Hwidth Hbounds. unfold shuffle_iteration.
  cbn [neuron_and_behavior_df generator shuffled_df].
  rewrite Hbounds. cbn.
  destruct (sample_order g (length (index table))) as [order g'].
  rewrite append_row_frame_of_rows by apply Hwidth. done.
Qed.

(** The loop of [shuffle_worker], from any iteration on: the rows it adds
    are the statistic of the successive contents of the one table. *)
Lemma shuffle_loop (neuron_activity_df : DataFrame)
    (behavior1 behavior2 first_col last_col : string) (bounds : nat * nat)
    (names : list string) (k : nat) :
  (∀ t, length (compute_diff_rate t neuron_activity_df behavior1 behavior2)
        = length names) →
  ∀ (table : DataFrame) (g : rng) (rows : list (list Q)),
    slice_bounds table first_col last_col = Ok bounds →
    ∃ st,
      for_each (seq (length rows) k)
        (shuffle_iteration sample_order compute_diff_rate
           neuron_activity_df behavior1 behavior2 first_col last_col)
        (mkState table g (frame_of_rows names rows))
      = Ok st
      ∧ shuffled_df st
        = frame_of_rows names
            (rows ++
             map (λ t, compute_diff_rate t neuron_activity_df
                         behavior1 behavior2)
               (tables_seen table bounds
                  (drawn_orders sample_order g
                     (length (index table)) k))).
Proof.
  intros Hwidth. induction k as [|k IH]; intros table g rows Hbounds.
  - eexists. split; [done|]. cbn. by rewrite app_nil_r.
  - cbn [seq for_each].
    rewrite (shuffle_iteration_eq _ _ _ _ _ _ bounds names) by done.
    cbn.
    set (order := (sample_order g (length (index table))).1).
    set (g' := (sample_order g (length (index table))).2).
    destruct (IH (permute_block table bounds order) g'
                (rows ++ [compute_diff_rate
                            (permute_block table bounds order)
                            neuron_activity_df behavior1 behavior2]))
      as (st & Hrun & Hst).
    { by rewrite slice_bounds_permute_block. }
    rewrite length_app in Hrun. cbn [length] in Hrun.
    replace (length rows + 1)%nat with (S (length rows)) in Hrun by lia.
    exists st. split; [done|]. rewrite Hst. cbn [index permute_block].
    by rewrite <- app_assoc.
Qed.

(** The frame a worker puts on the queue. *)
Lemma shuffle_worker_eq (g : rng) (num_of_experiments : Z)
    (neuron_activity_df neuron_and_behavior_df : DataFrame)
    (behavior1 behavior2 first_col last_col : string)
    (bounds : nat * nat) :
  first_and_last (column_names neuron_activity_df)
  = Ok (first_col, last_col) →
  slice_bounds neuron_and_behavior_df first_col last_col = Ok bounds →
  (∀ t, length (compute_diff_rate t neuron_activity_df behavior1 behavior2)
        = length (column_names neuron_activity_df)) →
  shuffle_worker sample_order compute_diff_rate g num_of_experiments
    neuron_activity_df neuron_and_behavior_df behavior1 behavior2
  = Ok (frame_of_rows (column_names neuron_activity_df)
          (map (λ t, compute_diff_rate t neuron_activity_df
                       behavior1 behavior2)
             (tables_seen neuron_and_behavior_df bounds
                (drawn_orders sample_order g
                   (length (index neuron_and_behavior_df))
                   (Z.to_nat num_of_experiments))))).
Proof.
  intros Hends Hbounds Hwidth.
  unfold shuffle_worker, shuffle_worker_run. rewrite Hends. cbn.
  destruct (shuffle_loop neuron_activity_df behavior1 behavior2
              first_col last_col bounds
              (column_names neuron_activity_df)
              (Z.to_nat num_of_experiments) Hwidth
              neuron_and_behavior_df g [] Hbounds) as (st & Hrun & Hst).
  cbn in Hrun. unfold empty_frame.
  replace (mkFrame [] (map (λ c, (c, [])) (column_names neuron_activity_df)))
    with (frame_of_rows (column_names neuron_activity_df) []).
  - rewrite Hrun. cbn. by rewrite Hst.
  - unfold frame_of_rows. cbn. f_equal.
    apply list_eq. intros i. rewrite list_lookup_imap.
    change (map ?f ?l) with (f <$> l). rewrite list_lookup_fmap.
    by destruct (column_names neuron_activity_df !! i).
Qed.


(** What every worker puts on the queue: a frame with the activity
    columns and one row per iteration. *)
Lemma shuffle_worker_frame (g : rng) (num_of_experiments : Z)
    (neuron_activity_df neuron_and_behavior_df : DataFrame)
    (behavior1 behavior2 : string) :
  column_names neuron_activity_df ≠ [] →
  column_names neuron_activity_df ⊆ column_names neuron_and_behavior_df →
  (∀ t, length (compute_diff_rate t neuron_activity_df behavior1 behavior2)
        = length (column_names neuron_activity_df)) →
  ∃ rows,
    shuffle_worker sample_order compute_diff_rate g num_of_experiments
      neuron_activity_df neuron_and_behavior_df behavior1 behavior2
    = Ok (frame_of_rows (column_names neuron_activity_df) rows)
    ∧ length rows = Z.to_nat num_of_experiments.
Proof.
  intros Hne Hsub Hwidth.
  destruct (first_and_last_Ok _ Hne) as (c & c' & Hends & Hc & Hc').
  destruct (slice_bounds_Ok neuron_and_behavior_df c c')
    as [bounds Hbounds]; [by apply Hsub..|].
  eexists. split; [by eapply shuffle_worker_eq|].
  by rewrite length_map, tables_seen_length, drawn_orders_length.
Qed.

(** C2. On a machine with [W >= 1] cores, for [R >= 1] requested
    resamples, an activity table with at least one column, all of them
    columns of the combined table, and a statistic that gives one value
    per neuron: whatever the generators and the order in which the workers
    finish, [shuffle] returns a table with exactly
    [W * floor(R / W) = R - R mod W] rows, whose columns are the columns
    of the activity table, each of that many values. *)
Theorem shuffle_row_count (W : nat) (seeds : nat → rng)
    (arrival : list nat) (R : Z)
    (neuron_and_behavior_df neuron_activity_df : DataFrame)
    (behavior1 behavior2 : string) :
  (1 <= R)%Z →
  (1 <= W)%nat →
  arrival ≡ₚ seq 0 W →
  column_names neuron_activity_df ≠ [] →
  column_names neuron_activity_df ⊆ column_names neuron_and_behavior_df →
  (∀ t, length (compute_diff_rate t neuron_activity_df behavior1 behavior2)
        = length (column_names neuron_activity_df)) →
  ∃ table,
    shuffle sample_order compute_diff_rate W seeds arrival R
      neuron_and_behavior_df neuron_activity_df behavior1 behavior2
    = Returned table
    ∧ length (index table) = (W * Z.to_nat (R / Z.of_nat W))%nat
    ∧ Z.of_nat (length (index table)) = (R - R mod Z.of_nat W)%Z
    ∧ column_names table = column_names neuron_activity_df
    ∧ Forall (λ col, length col.2 = (W * Z.to_nat (R / Z.of_nat W))%nat)
        (columns table).
Proof.
  intros HR HW Harrival Hne Hsub Hwidth.
  set (names := column_names neuron_activity_df).
  set (n := Z.to_nat (R / Z.of_nat W)).
  assert (Hworker : ∀ w, ∃ rows,
    shuffle_worker sample_order compute_diff_rate (seeds w)
      (R / Z.of_nat W) neuron_activity_df neuron_and_behavior_df
      behavior1 behavior2 = Ok (frame_of_rows names rows)
    ∧ length rows = n).
  { intros w. by apply shuffle_worker_frame. }
  unfold shuffle. destruct W as [|W']; [lia|].
  set (W := S W') in *.
  set (put := λ w : nat,
    match shuffle_worker sample_order compute_diff_rate (seeds w)
            (R / Z.of_nat W) neuron_activity_df neuron_and_behavior_df
            behavior1 behavior2 with
    | Ok df => Some df
    | Raise _ => None
    end).
  assert (Hput : ∀ w, ∃ rows, put w = Some (frame_of_rows names rows)
                              ∧ length rows = n).
  { intros w. subst put. cbn beta.
    destruct (Hworker w) as (rows & -> & Hrows). eauto. }
  clearbody put.
  assert (Hqueue : Forall (λ fr, ∃ rows, fr = frame_of_rows names rows
                                         ∧ length rows = n)
                     (omap put arrival)
                   ∧ length (omap put arrival) = length arrival).
  { clear Harrival. induction arrival as [|w arrival [IH1 IH2]]; [done|].
    destruct (Hput w) as (rows & Hw & Hrows).
    cbn. rewrite Hw. cbn.
    split; [|by rewrite IH2]. constructor; eauto. }
  destruct Hqueue as [Hframes Hlen].
  assert (HlenW : length (omap put arrival) = W).
  { by rewrite Hlen, Harrival, length_seq. }
  rewrite HlenW, Nat.ltb_irrefl, take_ge by lia.
  destruct (concat_frames names n (omap put arrival))
    as (table & -> & Hidx & Hnames & Hcols); [done | lia |].
  exists table. rewrite HlenW in Hidx, Hcols.
  split; [done|]. split; [done|]. split; [|done].
  rewrite Hidx. subst n.
  rewrite Nat2Z.inj_mul, Z2Nat.id by (apply Z.div_pos; lia).
  rewrite Z.mod_eq by lia. lia.
Qed.

End ShuffleProperties.


(** Ten resamples on four cores give eight rows; three give none, and the
    table then is [Samples.no_resamples]. *)
Example shuffle_10_on_4_cores :
  ∃ table,
    shuffle Samples.reversing Samples.first_row 4 (λ _, tt)
      [1; 0; 3; 2]%nat 10 Samples.combined Samples.busy_activity
      "open" "closed" = Returned table
    ∧ length (index table) = 8%nat.
Proof. eexists. split; [by vm_compute | done]. Qed.

Example shuffle_3_on_4_cores :
  shuffle Samples.reversing Samples.first_row 4 (λ _, tt)
    [1; 0; 3; 2]%nat 3 Samples.combined Samples.busy_activity
    "open" "closed" = Returned Samples.no_resamples.
Proof. by vm_compute. Qed.

(** ** The theorems at sample inputs *)

Lemma compute_two_side_p_val_binary64_witness :
  Binary64.compute_two_side_p_val Samples64.null_tie
    Samples64.observed_minus_5 "n0" = Ok 0.5%float
  ∧ 5%float ∈ as_extreme_binary64 (-5)%float [1; -5; 5; 3]%float
  ∧ 3%float ∉ as_extreme_binary64 (-5)%float [1; -5; 5; 3]%float.
Proof.
  destruct (compute_two_side_p_val_binary64 Samples64.null_tie
              Samples64.observed_minus_5 "n0" [1; -5; 5; 3]%float []
              (-5)%float) as (Hp & Hin & Htie).
  - discriminate.
  - reflexivity.
  - reflexivity.
  - split; [exact Hp|]. split.
    + apply Htie; [|reflexivity].
      do 2 apply list_elem_of_further. apply list_elem_of_here.
    + intros [_ H]%Hin. vm_compute in H. discriminate.
Defined.

(** Three null values of forty are as extreme as the observed one, and the
    value returned is not the quotient 3 / 40 but the float above it. *)
Lemma p_value_of_3_in_40 :
  length (as_extreme_binary64 1%float (replicate 3 1 ++ replicate 37 0)%float)
  = 3%nat
  ∧ length (Binary64.index Samples64.null_40) = 40%nat
  ∧ ∃ p, Binary64.compute_two_side_p_val Samples64.null_40
           Samples64.observed_1 "n0" = Ok p
         ∧ (p =? 3 / 40)%float = false
         ∧ (3 / 40 <? p)%float = true.
Proof.
  split; [by vm_compute|]. split; [by vm_compute|].
  eexists. split; [by vm_compute|]. by vm_compute.
Defined.

Lemma busy_activity_kept_binary64 :
  ¬ below_threshold_binary64 Samples64.busy_activity 2 "n0".
Proof.
  intros (col & Hcol & Hlt). injection Hcol as <-.
  vm_compute in Hlt. discriminate.
Defined.

Lemma null_tie_columns (c : string) :
  c ∈ Binary64.column_names Samples64.null_tie →
  ∃ d rest, assoc c (Binary64.columns Samples64.observed_minus_5)
            = Some (d :: rest).
Proof.
  intros Hc. apply list_elem_of_singleton in Hc as ->.
  exists (-5)%float, []. reflexivity.
Defined.

Lemma null_tie_nonempty (c : string) (null : list float) :
  assoc c (Binary64.columns Samples64.null_tie) = Some null → null ≠ [].
Proof.
  unfold Samples64.null_tie. cbn [Binary64.columns assoc].
  destruct (String.eqb "n0" c); intros H; inversion H. discriminate.
Defined.

Lemma classify_neurons_non_parametrically_binary64_witness :
  ∃ m,
    Binary64.classify_neurons_non_parametrically Samples64.busy_activity
      Samples64.null_tie Samples64.observed_minus_5 0.5%float 2 = Ok m
    ∧ m !! "n0"%string = Some "selective"%string.
Proof.
  destruct (classify_neurons_non_parametrically_binary64
              Samples64.busy_activity Samples64.null_tie
              Samples64.observed_minus_5 0.5%float 2 "n0")
    as (m & Hrun & _ & Hlabel).
  - discriminate.
  - exact null_tie_columns.
  - exact busy_activity_kept_binary64.
  - exists m. split; [exact Hrun|].
    exact (Hlabel [1; -5; 5; 3]%float (-5)%float [] eq_refl eq_refl).
Defined.

(** Where the claim of two labels for every neuron that passes the filter
    does not hold.  273 null values of 364 are as extreme as the observed
    one and 273 / 364 is at most the cutoff 3/4, but the float returned for
    the p-value lies above 0.75 and the neuron is ["not-selective"].  And a
    neuron that passes the filter without being a column of the null table
    gets no label. *)
Lemma non_parametric_labels_at_the_cutoff :
  (length (as_extreme_binary64 1%float
             (replicate 273 1 ++ replicate 91 0)%float) = 273%nat
   ∧ length (Binary64.index Samples64.null_364) = 364%nat
   ∧ (273 # 364 <= 3 # 4)%Q
   ∧ ∃ m,
       Binary64.classify_neurons_non_parametrically Samples64.busy_activity
         Samples64.null_364 Samples64.observed_1 0.75%float 2 = Ok m
       ∧ m !! "n0"%string = Some "not-selective"%string)
  ∧ ¬ below_threshold_binary64 Samples64.two_neurons 2 "n1"
  ∧ ∃ m,
      Binary64.classify_neurons_non_parametrically Samples64.two_neurons
        Samples64.null_364 Samples64.observed_1 0.75%float 2 = Ok m
      ∧ m !! "n1"%string = None.
Proof.
  split; [|split].
  - split; [by vm_compute|]. split; [by vm_compute|].
    split; [by vm_compute|].
    eexists. split; [by vm_compute|]. by vm_compute.
  - intros (col & Hcol & Hlt). injection Hcol as <-.
    vm_compute in Hlt. discriminate.
  - eexists. split; [by vm_compute|]. by vm_compute.
Defined.

Lemma tail_95_valid : valid_tail 95%float.
Proof. reflexivity. Defined.

Lemma tail_5_valid : valid_tail 5%float.
Proof. reflexivity. Defined.

Lemma classify_neurons_parametrically_binary64_witness :
  ∃ m,
    Binary64.classify_neurons_parametrically Samples64.busy_activity
      Samples64.null_tie Samples64.observed_minus_5 "Running" 95 5 2 = Ok m
    ∧ m !! "n0"%string = Some ("Non-" +:+ "Running").
Proof.
  destruct (classify_neurons_parametrically_binary64
              Samples64.busy_activity Samples64.null_tie
              Samples64.observed_minus_5 "Running" 95 5 2 "n0")
    as (m & Hrun & _ & Hlabel).
  - reflexivity.
  - exact null_tie_columns.
  - exact null_tie_nonempty.
  - exact tail_95_valid.
  - exact tail_5_valid.
  - exact busy_activity_kept_binary64.
  - exists m. split; [exact Hrun|].
    exact (Hlabel [1; -5; 5; 3]%float (-5)%float [] eq_refl eq_refl).
Defined.

(** Where the claim of three labels at inclusive boundaries for every
    neuron that passes the filter does not hold.  The 10th percentile of
    0, 10, 20, 30 is 3 and the observed value is 3, but numpy's
    interpolation returns the float above 3 and the neuron is
    ["Not-selective"].  And a neuron that passes the filter without being a
    column of the null table gets no label. *)
Lemma parametric_labels_at_the_boundary :
  (∃ exact, percentile [0; 10; 20; 30] 10 = Ok exact ∧ exact == 3)
  ∧ (∃ high, Binary64.percentile [0; 10; 20; 30]%float 10 = Ok high
             ∧ (3 <? high)%float = true)
  ∧ (∃ m,
       Binary64.classify_neurons_parametrically Samples64.busy_activity
         Samples64.null_steps Samples64.observed_3 "Running" 10 5 2 = Ok m
       ∧ m !! "n0"%string = Some "Not-selective"%string)
  ∧ ¬ below_threshold_binary64 Samples64.two_neurons 2 "n1"
  ∧ ∃ m,
      Binary64.classify_neurons_parametrically Samples64.two_neurons
        Samples64.null_steps Samples64.observed_3 "Running" 10 5 2 = Ok m
      ∧ m !! "n1"%string = None.
Proof.
  split; [|split; [|split; [|split]]].
  - eexists. split; [by vm_compute|]. by vm_compute.
  - eexists. split; [by vm_compute|]. by vm_compute.
  - eexists. split; [by vm_compute|]. by vm_compute.
  - intros (col & Hcol & Hlt). injection Hcol as <-.
    vm_compute in Hlt. discriminate.
  - eexists. split; [by vm_compute|]. by vm_compute.
Defined.

(** What [np.percentile] returns on 0, 10, 20, 30: the ends at 0 and 100,
    and between them values that the rounding of the position can move off
    the exact percentile. *)
Example percentile_binary64_values :
  Binary64.percentile [30; 0; 20; 10]%float 0 = Ok 0%float
  ∧ Binary64.percentile [30; 0; 20; 10]%float 100 = Ok 30%float
  ∧ Binary64.percentile [30; 0; 20; 10]%float 50 = Ok 15%float
  ∧ Binary64.percentile [30; 0; 20; 10]%float 10
    = Ok (10 * (3 * (10 / 100)))%float
  ∧ Binary64.percentile [30; nan; 20; 10]%float 50 = Ok nan
  ∧ Binary64.percentile [30; 0; 20; 10]%float 101 = Raise ValueError
  ∧ Binary64.percentile [] 50 = Raise IndexError.
Proof. by vm_compute. Qed.

Lemma compute_two_side_p_val_empty_witness :
  compute_two_side_p_val Samples.no_resamples Samples.observed_d "n0"
  = Raise ZeroDivisionError
  ∧ ∀ p, compute_two_side_p_val Samples.no_resamples Samples.observed_d "n0"
         ≠ Ok p.
Proof.
  apply (compute_two_side_p_val_empty Samples.no_resamples Samples.observed_d
           "n0").
  reflexivity.
Defined.

Lemma compute_two_side_p_val_monotone_witness :
  ∃ p1 p2,
    compute_two_side_p_val Samples.null_4 Samples.observed_d "n0" = Ok p1
    ∧ compute_two_side_p_val Samples.null_4
        (mkFrame [LStr "d"] [("n0"%string, [-4])]) "n0" = Ok p2
    ∧ p2 <= p1.
Proof.
  apply (compute_two_side_p_val_monotone Samples.null_4 Samples.observed_d
           (mkFrame [LStr "d"] [("n0"%string, [-4])]) "n0"
           [1; -5; 6; 3] [] [] 2 (-4)).
  - discriminate.
  - reflexivity.
  - reflexivity.
  - reflexivity.
  - vm_compute. discriminate.
Defined.

Lemma busy_activity_kept :
  ¬ below_threshold Samples.busy_activity 2 "n0".
Proof.
  intros (col & Hcol & Hlt). injection Hcol as <-.
  vm_compute in Hlt. discriminate.
Defined.

Lemma null_4_columns (c : string) :
  c ∈ column_names Samples.null_4 →
  ∃ d rest, assoc c (columns Samples.observed_d) = Some (d :: rest).
Proof.
  intros Hc. apply list_elem_of_singleton in Hc as ->.
  exists 2, []. reflexivity.
Defined.

Lemma null_4_nonempty (c : string) (null : list Q) :
  assoc c (columns Samples.null_4) = Some null → null ≠ [].
Proof.
  unfold Samples.null_4. cbn [columns assoc].
  destruct (String.eqb "n0" c); intros H; inversion H. discriminate.
Defined.



Lemma observed_row_label_shapes_witness :
  (∀ behavior_name high_tail low_tail,
     two_tailed_neuron_classification Samples.null_4 Samples.observed_0 "n0"
       behavior_name high_tail low_tail = Raise KeyError)
  ∧ (∀ dataframe behavior_name high_tail low_tail threshold,
       "n0"%string ∈ column_names Samples.null_4 →
       ¬ below_threshold dataframe threshold "n0" →
       classify_neurons_parametrically dataframe Samples.null_4
         Samples.observed_0 behavior_name high_tail low_tail threshold
       = Raise KeyError)
  ∧ compute_two_side_p_val Samples.null_4 Samples.observed_0 "n0"
    = Ok (1 / inject_Z 4 * inject_Z 3).
Proof.
  destruct (observed_row_label_shapes Samples.null_4 Samples.observed_0 "n0"
              (LInt 0)) as (Hone & Hall & Hp).
  - reflexivity.
  - discriminate.
  - split; [exact Hone|]. split; [exact Hall|].
    apply (Hp 2 [1; -5; 6; 3]).
    + discriminate.
    + reflexivity.
    + reflexivity.
Defined.


Lemma first_row_width (t : DataFrame) :
  length (Samples.first_row t Samples.busy_activity "open" "closed")
  = length (column_names Samples.busy_activity).
Proof. reflexivity. Defined.


Lemma arrival_order : [1; 0; 3; 2]%nat ≡ₚ seq 0 4.
Proof.
  cbn. eapply perm_trans; [apply perm_swap|].
  do 2 apply perm_skip. apply perm_swap.
Defined.

Lemma busy_activity_in_combined :
  column_names Samples.busy_activity ⊆ column_names Samples.combined.
Proof.
  intros c Hc. apply list_elem_of_singleton in Hc as ->.
  apply list_elem_of_here.
Defined.

Lemma shuffle_row_count_witness :
  ∃ table,
    shuffle Samples.reversing Samples.first_row 4 (λ _, tt)
      [1; 0; 3; 2]%nat 10 Samples.combined Samples.busy_activity
      "open" "closed" = Returned table
    ∧ length (index table) = (4 * Z.to_nat (10 / Z.of_nat 4))%nat
    ∧ Z.of_nat (length (index table)) = (10 - 10 mod Z.of_nat 4)%Z
    ∧ column_names table = column_names Samples.busy_activity
    ∧ Forall (λ col, length col.2 = (4 * Z.to_nat (10 / Z.of_nat 4))%nat)
        (columns table).
Proof.
  apply (shuffle_row_count Samples.reversing Samples.first_row 4 (λ _, tt)
           [1; 0; 3; 2]%nat 10 Samples.combined Samples.busy_activity
           "open" "closed").
  - lia.
  - lia.
  - exact arrival_order.
  - discriminate.
  - exact busy_activity_in_combined.
  - exact first_row_width.
Defined.

(** * Further properties *)

(** ** The p-value and the event count *)

Lemma filter_length_none (P : Q → Prop) `{!∀ v, Decision (P v)}
    (l : list Q) :
  length (filter P l) = 0%nat ↔ Forall (λ v, ¬ P v) l.
Proof.
  induction l as [|v l IH]; [by split; [constructor|]|].
  rewrite filter_cons. destruct (decide (P v)) as [Hv|Hv]; cbn.
  - split; [lia|]. intros Hall. by inversion Hall.
  - rewrite IH. split; [by constructor | intros Hall; by inversion Hall].
Qed.

Lemma ratio_range (k n : nat) :
  (k <= S n)%nat →
  0 <= 1 / inject_Z (Z.of_nat (S n)) * inject_Z (Z.of_nat k) <= 1.
Proof.
  intros Hk.
  assert (Hn : 0 < inject_Z (Z.of_nat (S n))).
  { unfold Qlt. cbn. lia. }
  assert (H0 : 0 <= inject_Z (Z.of_nat k)).
  { change 0 with (inject_Z 0). rewrite <- Zle_Qle. lia. }
  split.
  - apply Qmult_le_0_compat; [|done].
    apply Qle_shift_div_l; [done|]. by ring_simplify.
  - assert (E : 1 / inject_Z (Z.of_nat (S n)) * inject_Z (Z.of_nat k)
                == inject_Z (Z.of_nat k) / inject_Z (Z.of_nat (S n))).
    { field. apply inject_nat_nonzero. }
    rewrite E. apply Qle_shift_div_r; [done|]. ring_simplify.
    rewrite <- Zle_Qle. lia.
Qed.

Lemma ratio_zero (k n : nat) :
  1 / inject_Z (Z.of_nat (S n)) * inject_Z (Z.of_nat k) == 0 ↔ k = 0%nat.
Proof.
  split; [|intros ->; by ring_simplify].
  intros H. apply Qmult_integral in H as [H|H].
  - exfalso. apply (inject_nat_nonzero n).
    assert (E : inject_Z (Z.of_nat (S n))
                == inject_Z (Z.of_nat (S n)) * inject_Z (Z.of_nat (S n))
                   * (1 / inject_Z (Z.of_nat (S n)))).
    { field. apply inject_nat_nonzero. }
    rewrite E, H. ring.
  - unfold Qeq in H. cbn in H. lia.
Qed.

(** X1. On a null table with rows whose neuron column is as long as the
    table, the two-sided p-value lies between 0 and 1. *)
Theorem compute_two_side_p_val_range
    (resampled_df original_D_hat_df : DataFrame) (neuron : string)
    (col rest : list Q) (d_hat : Q) :
  index resampled_df ≠ [] →
  assoc neuron (columns resampled_df) = Some col →
  length col = length (index resampled_df) →
  assoc neuron (columns original_D_hat_df) = Some (d_hat :: rest) →
  ∃ p, compute_two_side_p_val resampled_df original_D_hat_df neuron = Ok p
       ∧ 0 <= p <= 1.
Proof.
  intros Hrows Hcol Hlen Hobs. eexists. split.
  - by eapply compute_two_side_p_val_eq.
  - destruct (index resampled_df) as [|l idx]; [done|]. cbn [length].
    apply ratio_range. rewrite <- (length_cons l idx), <- Hlen.
    apply length_filter.
Qed.

(** X2. On a null table with at least one row, for a neuron among its
    columns, the p-value is 0 exactly when no null value is as extreme as
    the observed one. *)
Theorem compute_two_side_p_val_extremes
    (resampled_df original_D_hat_df : DataFrame) (neuron : string)
    (col rest : list Q) (d_hat : Q) :
  index resampled_df ≠ [] →
  assoc neuron (columns resampled_df) = Some col →
  assoc neuron (columns original_D_hat_df) = Some (d_hat :: rest) →
  ∃ p, compute_two_side_p_val resampled_df original_D_hat_df neuron = Ok p
       ∧ (p == 0 ↔ Forall (λ v, ¬ Qabs d_hat <= Qabs v) col).
Proof.
  intros Hrows Hcol Hobs. eexists. split.
  { by eapply compute_two_side_p_val_eq. }
  destruct (index resampled_df) as [|l idx]; [done|]. cbn [length] in *.
  rewrite ratio_zero. apply filter_length_none.
Qed.

(** X3. What [compute_two_side_p_val] raises on a null table with rows: a
    neuron that is not a column of the null table, or not a column of the
    observed table, is a [KeyError]; an observed column without rows is an
    [IndexError]. *)
Theorem compute_two_side_p_val_lookup_errors
    (resampled_df original_D_hat_df : DataFrame) (neuron : string) :
  index resampled_df ≠ [] →
  (neuron ∉ column_names resampled_df →
     compute_two_side_p_val resampled_df original_D_hat_df neuron
     = Raise KeyError)
  ∧ (neuron ∈ column_names resampled_df →
     neuron ∉ column_names original_D_hat_df →
     compute_two_side_p_val resampled_df original_D_hat_df neuron
     = Raise KeyError)
  ∧ (neuron ∈ column_names resampled_df →
     assoc neuron (columns original_D_hat_df) = Some [] →
     compute_two_side_p_val resampled_df original_D_hat_df neuron
     = Raise IndexError).
Proof.
  intros Hrows. unfold compute_two_side_p_val, loc_col, getitem.
  destruct (index resampled_df) as [|l idx]; [done|]. cbn.
  split; [|split].
  - intros Hout. destruct (assoc neuron (columns resampled_df)) eqn:E;
      [|done].
    exfalso. apply Hout, assoc_is_Some. by rewrite E.
  - intros Hin Hout. apply assoc_is_Some in Hin as [col ->]. cbn.
    destruct (assoc neuron (columns original_D_hat_df)) eqn:E; [|done].
    exfalso. apply Hout, assoc_is_Some. by rewrite E.
  - intros Hin Hobs. apply assoc_is_Some in Hin as [col ->]. cbn.
    by rewrite Hobs.
Qed.

(** X4. [get_num_of_events] raises [KeyError] exactly for a neuron that is
    not a column; for a column it returns a count that is at most the number
    of samples, and 0 exactly when every sample is 0. *)
Theorem get_num_of_events_count (dataframe : DataFrame) (neuron : string) :
  (neuron ∉ column_names dataframe ↔
     get_num_of_events dataframe neuron = Raise KeyError)
  ∧ (∀ col, assoc neuron (columns dataframe) = Some col →
       ∃ n, get_num_of_events dataframe neuron = Ok n
            ∧ (n <= length col)%nat
            ∧ (n = 0%nat ↔ Forall (λ v, v == 0) col)).
Proof.
  split.
  - unfold column_names. rewrite assoc_is_Some.
    unfold get_num_of_events, loc_col, getitem.
    destruct (assoc neuron (columns dataframe)) as [col|]; cbn.
    + split; [intros H; exfalso; apply H; eauto | done].
    + split; [done | intros _ [? ?]; done].
  - intros col Hcol. exists (event_count col).
    split; [by apply get_num_of_events_Ok|]. unfold event_count.
    split; [apply length_filter|].
    rewrite filter_length_none. apply Forall_iff. intros v.
    destruct (Qeq_dec v 0); tauto.
Qed.

(** ** The dictionaries the strategies return *)

(** A property of the neurons seen so far and the state, kept by every
    iteration that returns, holds at the end of a loop that returns. *)
Lemma for_each_invariant {S : Type} (P : list string → S → Prop)
    (body : string → S → result S) (l : list string) (s0 s' : S) :
  P [] s0 →
  (∀ seen k s s1, P seen s → body k s = Ok s1 → P (seen ++ [k]) s1) →
  for_each l body s0 = Ok s' →
  P l s'.
Proof.
  intros H0 Hstep.
  assert (Hgen : ∀ seen s, P seen s → for_each l body s = Ok s' →
                   P (seen ++ l) s').
  { induction l as [|x l IH]; intros seen s Hs; cbn.
    - intros [= <-]. by rewrite app_nil_r.
    - destruct (body x s) as [s1|e] eqn:Ex; [|done]. cbn. intros Hrun.
      rewrite (cons_middle x seen l), app_assoc. eapply IH; [|done].
      by eapply Hstep. }
  apply (Hgen [] s0 H0).
Qed.

(** X5. Whenever [classify_neurons_non_parametrically] returns, the keys of
    the dictionary are the neurons below the threshold together with the
    columns of the null table (an activity column that passes the filter
    and is not in the null table gets no entry), every label is one of
    ["unclassified"], ["selective"], ["not-selective"], and the
    ["unclassified"] neurons are exactly those below the threshold. *)
Theorem classify_neurons_non_parametrically_keys
    (dataframe resampled_df real_diff_df : DataFrame)
    (p_value : Q) (threshold : Z) (m : gmap string string) :
  classify_neurons_non_parametrically dataframe resampled_df real_diff_df
    p_value threshold = Ok m →
  (∀ k, is_Some (m !! k) ↔
        below_threshold dataframe threshold k
        ∨ k ∈ column_names resampled_df)
  ∧ (∀ k lab, m !! k = Some lab →
       lab = "unclassified"%string ∨ lab = "selective"%string
       ∨ lab = "not-selective"%string)
  ∧ (∀ k, m !! k = Some "unclassified"%string ↔
          below_threshold dataframe threshold k).
Proof.
  unfold classify_neurons_non_parametrically.
  destruct (event_count_filter_spec dataframe threshold) as (m1 & -> & Hm1).
  cbn. intros Hrun.
  assert (Hinv : ∀ k,
    (below_threshold dataframe threshold k →
       m !! k = Some "unclassified"%string)
    ∧ (¬ below_threshold dataframe threshold k →
       k ∉ column_names resampled_df → m !! k = None)
    ∧ (¬ below_threshold dataframe threshold k →
       k ∈ column_names resampled_df →
       m !! k = Some "selective"%string
       ∨ m !! k = Some "not-selective"%string)).
  { revert Hrun. apply (for_each_invariant (λ seen m, ∀ k,
      (below_threshold dataframe threshold k →
         m !! k = Some "unclassified"%string)
      ∧ (¬ below_threshold dataframe threshold k →
         k ∉ seen → m !! k = None)
      ∧ (¬ below_threshold dataframe threshold k →
         k ∈ seen →
         m !! k = Some "selective"%string
         ∨ m !! k = Some "not-selective"%string))).
    - intros k. rewrite Hm1. case_decide; split_and!; try done.
      by intros _ ?%elem_of_nil.
    - intros seen x ma mb Hma Hbody k. cbn in Hbody.
      destruct (compute_two_side_p_val resampled_df real_diff_df x) as [p|];
        [|done].
      cbn in Hbody. destruct (Hma k) as (Hb & Hout & Hin).
      assert (Hmb : ∃ lab, mb = set_if_absent x lab ma
                           ∧ (lab = "selective"%string
                              ∨ lab = "not-selective"%string)).
      { destruct (Qle_bool p p_value); injection Hbody as <-; eauto. }
      destruct Hmb as (lab & -> & Hlab). unfold set_if_absent.
      split_and!.
      + intros Hk. specialize (Hb Hk). destruct (ma !! x) eqn:Ex; [done|].
        rewrite lookup_insert_ne; [done|]. congruence.
      + intros Hk Hnot. rewrite not_elem_of_app in Hnot.
        destruct Hnot as [Hseen Hx]. rewrite list_elem_of_singleton in Hx.
        destruct (ma !! x); [by apply Hout|].
        rewrite lookup_insert_ne by done. by apply Hout.
      + intros Hk Hmem. rewrite elem_of_app, list_elem_of_singleton in Hmem.
        destruct (decide (k = x)) as [->|Hne].
        * destruct (ma !! x) as [v|] eqn:Ex.
          -- destruct (decide (x ∈ seen)) as [Hs|Hs].
             ++ rewrite Ex. by apply Hin.
             ++ by specialize (Hout Hk Hs).
          -- rewrite lookup_insert_eq. destruct Hlab as [->| ->]; eauto.
        * destruct Hmem as [Hs|?]; [|done].
          destruct (ma !! x); [by apply Hin|].
          rewrite lookup_insert_ne by done. by apply Hin. }
  split_and!.
  - intros k. destruct (Hinv k) as (Hb & Hout & Hin).
    destruct (decide (below_threshold dataframe threshold k)) as [Hk|Hk].
    + rewrite (Hb Hk). split; eauto.
    + destruct (decide (k ∈ column_names resampled_df)) as [Hc|Hc].
      * split; [by eauto|]. intros _.
        destruct (Hin Hk Hc) as [-> | ->]; eauto.
      * rewrite (Hout Hk Hc). split; [by intros [? ?]|]. tauto.
  - intros k lab Hlab. destruct (Hinv k) as (Hb & Hout & Hin).
    destruct (decide (below_threshold dataframe threshold k)) as [Hk|Hk].
    + rewrite (Hb Hk) in Hlab. injection Hlab as <-. eauto.
    + destruct (decide (k ∈ column_names resampled_df)) as [Hc|Hc].
      * destruct (Hin Hk Hc) as [H|H]; rewrite H in Hlab;
          injection Hlab as <-; eauto.
      * rewrite (Hout Hk Hc) in Hlab. done.
  - intros k. destruct (Hinv k) as (Hb & Hout & Hin).
    split; [|done]. intros Hlab.
    destruct (decide (below_threshold dataframe threshold k)) as [Hk|Hk];
      [done|].
    destruct (decide (k ∈ column_names resampled_df)) as [Hc|Hc].
    + destruct (Hin Hk Hc) as [H|H]; rewrite H in Hlab; done.
    + rewrite (Hout Hk Hc) in Hlab. done.
Qed.

Lemma two_tailed_neuron_classification_labels
    (resampled_df real_d_df : DataFrame) (neuron behavior_name lab : string)
    (high_tail low_tail : Q) :
  two_tailed_neuron_classification resampled_df real_d_df neuron
    behavior_name high_tail low_tail = Ok lab →
  lab = behavior_name ∨ lab = ("Non-" +:+ behavior_name)
  ∨ lab = "Not-selective"%string.
Proof.
  unfold two_tailed_neuron_classification.
  destruct (getitem real_d_df neuron) as [obs|]; [|done]. cbn.
  destruct (at_label (index real_d_df) obs (LStr "d")) as [d|]; [|done]. cbn.
  destruct (getitem resampled_df neuron) as [null|]; [|done]. cbn.
  destruct (percentile null high_tail) as [high|]; [|done]. cbn.
  destruct d as [d|ds]; [|done]. cbn.
  destruct (Qle_bool high d); [intros [= <-]; eauto|].
  destruct (percentile null low_tail) as [low|]; [|done]. cbn.
  destruct (Qle_bool d low); intros [= <-]; eauto.
Qed.

(** X6. Whenever [classify_neurons_parametrically] returns, the keys of the
    dictionary are the neurons below the threshold together with the columns
    of the null table; a neuron below the threshold is ["unclassified"], and
    any other entry holds what [two_tailed_neuron_classification] returns
    for that neuron, one of [behavior_name], ["Non-" + behavior_name] and
    ["Not-selective"]. *)
Theorem classify_neurons_parametrically_keys
    (dataframe resampled_df real_diff_df : DataFrame)
    (behavior_name : string) (high_tail low_tail : Q) (threshold : Z)
    (m : gmap string string) :
  classify_neurons_parametrically dataframe resampled_df real_diff_df
    behavior_name high_tail low_tail threshold = Ok m →
  (∀ k, is_Some (m !! k) ↔
        below_threshold dataframe threshold k
        ∨ k ∈ column_names resampled_df)
  ∧ (∀ k, below_threshold dataframe threshold k →
          m !! k = Some "unclassified"%string)
  ∧ (∀ k lab, ¬ below_threshold dataframe threshold k →
       m !! k = Some lab →
       two_tailed_neuron_classification resampled_df real_diff_df k
         behavior_name high_tail low_tail = Ok lab
       ∧ (lab = behavior_name ∨ lab = ("Non-" +:+ behavior_name)
          ∨ lab = "Not-selective"%string)).
Proof.
  unfold classify_neurons_parametrically.
  destruct (event_count_filter_spec dataframe threshold) as (m1 & -> & Hm1).
  cbn. intros Hrun.
  assert (Hinv : ∀ k,
    (below_threshold dataframe threshold k →
       m !! k = Some "unclassified"%string)
    ∧ (¬ below_threshold dataframe threshold k →
       k ∉ column_names resampled_df → m !! k = None)
    ∧ (¬ below_threshold dataframe threshold k →
       k ∈ column_names resampled_df →
       ∃ lab, m !! k = Some lab
              ∧ two_tailed_neuron_classification resampled_df real_diff_df
                  k behavior_name high_tail low_tail = Ok lab)).
  { revert Hrun. apply (for_each_invariant (λ seen m, ∀ k,
      (below_threshold dataframe threshold k →
         m !! k = Some "unclassified"%string)
      ∧ (¬ below_threshold dataframe threshold k →
         k ∉ seen → m !! k = None)
      ∧ (¬ below_threshold dataframe threshold k →
         k ∈ seen →
         ∃ lab, m !! k = Some lab
                ∧ two_tailed_neuron_classification resampled_df
                    real_diff_df k behavior_name high_tail low_tail
                  = Ok lab))).
    - intros k. rewrite Hm1. case_decide; split_and!; try done.
      by intros _ ?%elem_of_nil.
    - intros seen x ma mb Hma Hbody k. cbn in Hbody.
      destruct (Hma k) as (Hb & Hout & Hin).
      destruct (ma !! x) as [v|] eqn:Ex.
      + injection Hbody as <-. split_and!; [done| |].
        * intros Hk Hnot. rewrite not_elem_of_app in Hnot.
          destruct Hnot as [Hs _]. by apply Hout.
        * intros Hk Hmem. rewrite elem_of_app, list_elem_of_singleton in Hmem.
          destruct Hmem as [Hs| ->]; [by apply Hin|].
          destruct (decide (x ∈ seen)) as [Hs|Hs]; [by apply Hin|].
          rewrite (Hout Hk Hs) in Ex. done.
      + destruct (two_tailed_neuron_classification resampled_df real_diff_df
                    x behavior_name high_tail low_tail) as [lab|] eqn:El;
          [|done].
        cbn in Hbody. injection Hbody as <-. split_and!.
        * intros Hk. specialize (Hb Hk).
          rewrite lookup_insert_ne; [done|]. congruence.
        * intros Hk Hnot. rewrite not_elem_of_app in Hnot.
          destruct Hnot as [Hseen Hx]. rewrite list_elem_of_singleton in Hx.
          rewrite lookup_insert_ne by done. by apply Hout.
        * intros Hk Hmem. rewrite elem_of_app, list_elem_of_singleton in Hmem.
          destruct (decide (k = x)) as [->|Hne].
          -- exists lab. by rewrite lookup_insert_eq.
          -- destruct Hmem as [Hs|?]; [|done].
             rewrite lookup_insert_ne by done. by apply Hin. }
  split_and!.
  - intros k. destruct (Hinv k) as (Hb & Hout & Hin).
    destruct (decide (below_threshold dataframe threshold k)) as [Hk|Hk].
    + rewrite (Hb Hk). split; eauto.
    + destruct (decide (k ∈ column_names resampled_df)) as [Hc|Hc].
      * split; [by eauto|]. intros _.
        destruct (Hin Hk Hc) as (lab & -> & _). eauto.
      * rewrite (Hout Hk Hc). split; [by intros [? ?]|]. tauto.
  - intros k Hk. by apply Hinv.
  - intros k lab Hk Hlab. destruct (Hinv k) as (Hb & Hout & Hin).
    destruct (decide (k ∈ column_names resampled_df)) as [Hc|Hc].
    + destruct (Hin Hk Hc) as (lab' & Hl & Hcls).
      rewrite Hl in Hlab. injection Hlab as <-. split; [done|].
      by eapply two_tailed_neuron_classification_labels.
    + rewrite (Hout Hk Hc) in Hlab. done.
Qed.

Lemma parametric_loop_skips (f : string → result string) (l : list string)
    (m : gmap string string) :
  (∀ k, k ∈ l → is_Some (m !! k)) →
  for_each l
    (λ neuron classified_neurons,
       match classified_neurons !! neuron with
       | Some _ => Ok classified_neurons
       | None => lab ← f neuron; Ok (<[neuron := lab]> classified_neurons)
       end) m
  = Ok m.
Proof.
  induction l as [|x l IH]; intros Hall; [done|]. cbn [for_each].
  destruct (Hall x) as [v ->]; [apply list_elem_of_here|]. cbn.
  apply IH. intros k Hk. by apply Hall, list_elem_of_further.
Qed.

(** X7. When every column of the null table is below the threshold,
    [classify_neurons_parametrically] evaluates nothing: whatever the null
    table, the observed table and the tails hold, it returns the dictionary
    of the event-count filter. *)
Theorem classify_neurons_parametrically_all_filtered
    (dataframe resampled_df real_diff_df : DataFrame)
    (behavior_name : string) (high_tail low_tail : Q) (threshold : Z) :
  (∀ c, c ∈ column_names resampled_df →
        below_threshold dataframe threshold c) →
  classify_neurons_parametrically dataframe resampled_df real_diff_df
    behavior_name high_tail low_tail threshold
  = event_count_filter dataframe threshold.
Proof.
  intros Hall. unfold classify_neurons_parametrically.
  destruct (event_count_filter_spec dataframe threshold) as (m1 & -> & Hm1).
  cbn. apply parametric_loop_skips. intros k Hk.
  rewrite Hm1, decide_True by by apply Hall. eauto.
Qed.

Lemma non_parametric_no_rows
    (dataframe resampled_df real_diff_df : DataFrame)
    (p_value : Q) (threshold : Z) :
  index resampled_df = [] →
  column_names resampled_df ≠ [] →
  classify_neurons_non_parametrically dataframe resampled_df real_diff_df
    p_value threshold = Raise ZeroDivisionError.
Proof.
  intros Hrows Hcols. unfold classify_neurons_non_parametrically.
  destruct (event_count_filter_spec dataframe threshold) as (m1 & -> & _).
  cbn. destruct (column_names resampled_df) as [|c l]; [done|].
  assert (Hp : compute_two_side_p_val resampled_df real_diff_df c
               = Raise ZeroDivisionError).
  { unfold compute_two_side_p_val. by rewrite Hrows. }
  cbn [for_each]. by rewrite Hp.
Qed.

(** X8. On a null table without rows, [classify_neurons_non_parametrically]
    raises [ZeroDivisionError] as soon as the table has a column, whatever
    the activity table, the observed table and the threshold are; without
    columns it returns the dictionary of the event-count filter. *)
Theorem classify_neurons_non_parametrically_no_rows
    (dataframe resampled_df real_diff_df : DataFrame)
    (p_value : Q) (threshold : Z) :
  index resampled_df = [] →
  (column_names resampled_df ≠ [] →
     classify_neurons_non_parametrically dataframe resampled_df real_diff_df
       p_value threshold = Raise ZeroDivisionError)
  ∧ (column_names resampled_df = [] →
     classify_neurons_non_parametrically dataframe resampled_df real_diff_df
       p_value threshold = event_count_filter dataframe threshold).
Proof.
  intros Hrows. split; [by apply non_parametric_no_rows|].
  intros Hnone. unfold classify_neurons_non_parametrically.
  destruct (event_count_filter_spec dataframe threshold) as (m1 & -> & _).
  cbn. by rewrite Hnone.
Qed.

(** ** Percentiles and the two tails *)












(** ** Edge cases of the shuffle *)

Lemma position_of_None (name : string) (names : list string) :
  name ∉ names → position_of name names = None.
Proof.
  induction names as [|c names IH]; [done|]. cbn. intros Hout.
  rewrite not_elem_of_cons in Hout. destruct Hout as [Hne Hout].
  destruct (String.eqb_spec c name) as [->|_]; [done|].
  by rewrite IH.
Qed.

Lemma omap_all_None {A B : Type} (f : A → option B) (l : list A) :
  (∀ x, f x = None) → omap f l = [].
Proof.
  intros Hf. induction l as [|x l IH]; [done|]. cbn. by rewrite Hf.
Qed.

Lemma omap_all_Some {A B : Type} (f : A → option B) (y : B) (l : list A) :
  (∀ x, f x = Some y) → omap f l = replicate (length l) y.
Proof.
  intros Hf. induction l as [|x l IH]; [done|]. cbn. by rewrite Hf, IH.
Qed.

Lemma flat_map_replicate_nil {A B : Type} (g : A → list B) (x : A)
    (n : nat) :
  g x = [] → flat_map g (replicate n x) = [].
Proof.
  intros Hg. induction n as [|n IH]; [done|]. cbn. by rewrite Hg, IH.
Qed.

Lemma concat_empty_frames (names : list string) (n : nat) :
  concat (replicate (S n) (empty_frame names)) = Ok (empty_frame names).
Proof.
  unfold concat. cbn [replicate]. f_equal.
  rewrite <- replicate_S.
  rewrite (flat_map_replicate_nil index) by done.
  unfold empty_frame at 2 3. cbn [length range_index seq map columns].
  f_equal. rewrite map_map. apply map_ext_in. intros c Hc.
  cbn [fst]. f_equal. apply flat_map_replicate_nil.
  unfold empty_frame. cbn [columns]. clear.
  induction names as [|c' names IH]; [done|].
  cbn [map assoc]. by destruct (String.eqb c' c).
Qed.

(** A property of the state kept by every iteration that returns holds at
    the end of a loop that returns. *)
Lemma for_each_preserves {A S : Type} (P : S → Prop)
    (body : A → S → result S) (l : list A) (s0 s' : S) :
  P s0 →
  (∀ k s s1, P s → body k s = Ok s1 → P s1) →
  for_each l body s0 = Ok s' →
  P s'.
Proof.
  intros H0 Hstep. revert s0 H0.
  induction l as [|x l IH]; intros s0 H0; cbn.
  - by intros [= <-].
  - destruct (body x s0) as [s1|e] eqn:Ex; [|done]. cbn.
    apply IH. by eapply Hstep.
Qed.

Lemma take_rows_Permutation (order : list nat) (vs : list Q) :
  order ≡ₚ seq 0 (length vs) → take_rows order vs ≡ₚ vs.
Proof.
  intros Ho. unfold take_rows.
  change (map ?f ?l) with (f <$> l). rewrite Ho.
  assert (E : (λ i, nth i vs 0) <$> seq 0 (length vs) = vs).
  { apply list_eq. intros i. rewrite list_lookup_fmap.
    destruct (decide (i < length vs)%nat) as [Hi|Hi].
    - rewrite lookup_seq_lt by done. cbn.
      destruct (lookup_lt_is_Some_2 vs i Hi) as [v Hv].
      by rewrite Hv, (nth_lookup_Some _ _ _ _ Hv).
    - rewrite lookup_seq_ge by lia. cbn. symmetry.
      apply lookup_ge_None. lia. }
  by rewrite E.
Qed.

Lemma permute_block_marginals (t0 t : DataFrame) (bounds : nat * nat)
    (order : list nat) :
  Forall (λ col, length col.2 = length (index t0)) (columns t0) →
  order ≡ₚ seq 0 (length (index t)) →
  same_marginals t0 t →
  same_marginals t0 (permute_block t bounds order).
Proof.
  intros Hwf Ho [Hidx Hcols]. split; [done|]. cbn [columns permute_block].
  apply Forall2_same_length_lookup. split.
  { rewrite length_imap. by eapply Forall2_length. }
  intros i c0 c' H0 H'. rewrite list_lookup_imap in H'.
  destruct (columns t !! i) as [c|] eqn:Ec; [|done].
  cbn in H'. injection H' as <-.
  destruct (Forall2_lookup_lr _ _ _ _ _ _ Hcols H0 Ec) as [Hname Hvals].
  destruct (in_slice bounds i); [|done]. cbn. split; [done|].
  rewrite <- Hvals. apply take_rows_Permutation.
  rewrite Forall_forall in Hwf.
  assert (Hlen : length c.2 = length (index t)).
  { rewrite Hvals, Hidx. apply Hwf. by eapply list_elem_of_lookup_2. }
  by rewrite Hlen.
Qed.

Lemma omap_Some_fmap {A B : Type} (f : A → option B) (g : A → B)
    (l : list A) :
  (∀ x, f x = Some (g x)) → omap f l = g <$> l.
Proof.
  intros Hf. induction l as [|x l IH]; [done|]. cbn. by rewrite Hf, IH.
Qed.

Lemma for_each_ext {A S : Type} (body1 body2 : A → S → result S)
    (l : list A) (s : S) :
  (∀ k s, body1 k s = body2 k s) →
  for_each l body1 s = for_each l body2 s.
Proof.
  intros Hext. revert s. induction l as [|x l IH]; intros s; [done|].
  cbn. rewrite Hext. destruct (body2 x s); [apply IH | done].
Qed.

Lemma assoc_map_names (G : string → list Q)
    (cols : list (string * list Q)) (c : string) :
  assoc c (map (λ col, (col.1, G col.1)) cols)
  = match assoc c cols with
    | Some _ => Some (G c)
    | None => None
    end.
Proof.
  induction cols as [|[c' vs] cols IH]; [done|]. cbn.
  destruct (String.eqb_spec c' c) as [->|_]; [done | apply IH].
Qed.

(** A column of a concatenation: the column of each frame, one after the
    other, when the first frame has it. *)
Lemma concat_assoc (f : DataFrame) (frames : list DataFrame)
    (table : DataFrame) (c : string) :
  concat (f :: frames) = Ok table →
  assoc c (columns table)
  = match assoc c (columns f) with
    | Some _ =>
        Some (flat_map (λ fr, default [] (assoc c (columns fr)))
                (f :: frames))
    | None => None
    end.
Proof.
  unfold concat. intros [= <-]. cbn [columns].
  apply (assoc_map_names
           (λ name, flat_map (λ fr, default [] (assoc name (columns fr)))
                      (f :: frames))).
Qed.

Lemma concat_index (f : DataFrame) (frames : list DataFrame)
    (table : DataFrame) :
  concat (f :: frames) = Ok table →
  length (index table) = length (flat_map index (f :: frames)).
Proof.
  unfold concat. intros [= <-]. cbn [index]. unfold range_index.
  by rewrite length_map, length_seq.
Qed.

(** The p-value reads a null column only through its length and the number
    of its values that are as extreme as the observed one. *)
Lemma compute_two_side_p_val_Permutation (t1 t2 observed : DataFrame)
    (neuron : string) :
  length (index t1) = length (index t2) →
  match assoc neuron (columns t1), assoc neuron (columns t2) with
  | Some c1, Some c2 => c1 ≡ₚ c2
  | None, None => True
  | _, _ => False
  end →
  compute_two_side_p_val t1 observed neuron
  = compute_two_side_p_val t2 observed neuron.
Proof.
  intros Hlen Hcol. unfold compute_two_side_p_val, loc_col, getitem.
  rewrite Hlen. destruct (py_inv (length (index t2))) as [w|]; [|done].
  cbn.
  destruct (assoc neuron (columns t1)) as [c1|],
           (assoc neuron (columns t2)) as [c2|]; try done.
  cbn. destruct (assoc neuron (columns observed)) as [obs|]; [|done].
  cbn. destruct (values_at obs 0) as [d|]; [|done]. cbn.
  rewrite !(boolean_index_map _ (λ v, Qabs d <= Qabs v))
    by (intros v; apply Qle_bool_iff).
  by rewrite Hcol.
Qed.

Section ShuffleEdgeCases.
Context {rng : Type}.
Variable sample_order : rng → nat → list nat * rng.
Variable compute_diff_rate :
  DataFrame → DataFrame → string → string → list Q.

Lemma shuffle_iteration_KeyError (activity table shuffled : DataFrame)
    (behavior1 behavior2 first_col last_col : string) (i : nat) (g : rng) :
  slice_bounds table first_col last_col = Raise KeyError →
  shuffle_iteration sample_order compute_diff_rate activity behavior1
    behavior2 first_col last_col i (mkState table g shuffled)
  = Raise KeyError.
Proof. intros Hb. unfold shuffle_iteration. cbn. by rewrite Hb. Qed.

(** The label slice raises [KeyError] when one of its ends is not a column
    and the column names are neither increasing nor decreasing. *)
Lemma slice_bounds_KeyError (df : DataFrame) (first_col last_col : string) :
  first_col ∉ column_names df ∨ last_col ∉ column_names df →
  is_monotonic_increasing (column_names df) = false →
  is_monotonic_decreasing (column_names df) = false →
  slice_bounds df first_col last_col = Raise KeyError.
Proof.
  intros Hmissing Hinc Hdec.
  assert (Hraise : ∀ lbl right, lbl ∉ column_names df →
            get_slice_bound (column_names df) lbl right = Raise KeyError).
  { intros lbl right Hout. unfold get_slice_bound, searchsorted_monotonic.
    by rewrite (position_of_None _ _ Hout), Hinc, Hdec. }
  unfold slice_bounds. destruct Hmissing as [H|H].
  - by rewrite (Hraise _ false H).
  - rewrite (Hraise _ true H).
    destruct (get_slice_bound (column_names df) first_col false)
      as [start|e] eqn:E; [done|].
    unfold get_slice_bound in E.
    destruct (position_of first_col (column_names df)); [done|].
    by destruct (searchsorted_monotonic _ _ _); [|injection E as <-].
Qed.

(** X12. [shuffle] blocks for ever, on any machine and for any number of
    resamples, when the activity table has no column: every worker dies on
    [columns[0]] before it puts anything on the queue.  It also blocks when
    at least one resample per worker is asked for, the first or the last
    activity column is not a column of the combined table, and the column
    names of the combined table are neither increasing nor decreasing: the
    label slice then raises [KeyError] in the first iteration of every
    worker.  (On sorted column names the missing label is placed by
    position, and the workers go on.) *)
Theorem shuffle_blocks (W : nat) (seeds : nat → rng) (arrival : list nat)
    (R : Z) (neuron_and_behavior_df neuron_activity_df : DataFrame)
    (behavior1 behavior2 : string) :
  (1 <= W)%nat →
  (column_names neuron_activity_df = [] →
     shuffle sample_order compute_diff_rate W seeds arrival R
       neuron_and_behavior_df neuron_activity_df behavior1 behavior2
     = Blocked)
  ∧ (∀ first_col last_col,
       first_and_last (column_names neuron_activity_df)
       = Ok (first_col, last_col) →
       first_col ∉ column_names neuron_and_behavior_df
       ∨ last_col ∉ column_names neuron_and_behavior_df →
       is_monotonic_increasing (column_names neuron_and_behavior_df)
       = false →
       is_monotonic_decreasing (column_names neuron_and_behavior_df)
       = false →
       (Z.of_nat W <= R)%Z →
       shuffle sample_order compute_diff_rate W seeds arrival R
         neuron_and_behavior_df neuron_activity_df behavior1 behavior2
       = Blocked).
Proof.
  intros HW.
  assert (Hblocked : (∀ w, ∃ e,
      shuffle_worker sample_order compute_diff_rate (seeds w)
        (R / Z.of_nat W) neuron_activity_df neuron_and_behavior_df
        behavior1 behavior2 = Raise e) →
    shuffle sample_order compute_diff_rate W seeds arrival R
      neuron_and_behavior_df neuron_activity_df behavior1 behavior2
    = Blocked).
  { intros Hdie. unfold shuffle. destruct W as [|W']; [lia|].
    rewrite omap_all_None.
    - done.
    - intros w. by destruct (Hdie w) as [e ->]. }
  split.
  - intros Hnone. apply Hblocked. intros w. exists IndexError.
    unfold shuffle_worker, shuffle_worker_run. by rewrite Hnone.
  - intros first_col last_col Hends Hmissing Hinc Hdec HR. apply Hblocked.
    intros w. exists KeyError.
    unfold shuffle_worker, shuffle_worker_run. rewrite Hends. cbn.
    assert (Hn : ∃ n, Z.to_nat (R / Z.of_nat W) = S n).
    { assert (1 <= R / Z.of_nat W)%Z.
      { apply Z.div_le_lower_bound; lia. }
      exists (Z.to_nat (R / Z.of_nat W) - 1)%nat. lia. }
    destruct Hn as [n ->]. cbn [seq for_each].
    rewrite shuffle_iteration_KeyError; [done|].
    by apply slice_bounds_KeyError.
Qed.

(** X13. When fewer resamples are asked for than there are cores (zero or
    a negative number included), no worker runs an iteration: for every
    activity table with a column, whatever the combined table and the
    statistic are, [shuffle] returns the activity columns without rows; and
    [classify_neurons_non_parametrically] raises [ZeroDivisionError] on
    that table. *)
Theorem shuffle_fewer_resamples_than_cores (W : nat) (seeds : nat → rng)
    (arrival : list nat) (R : Z)
    (neuron_and_behavior_df neuron_activity_df : DataFrame)
    (behavior1 behavior2 : string) :
  (1 <= W)%nat →
  (R < Z.of_nat W)%Z →
  arrival ≡ₚ seq 0 W →
  column_names neuron_activity_df ≠ [] →
  shuffle sample_order compute_diff_rate W seeds arrival R
    neuron_and_behavior_df neuron_activity_df behavior1 behavior2
  = Returned (empty_frame (column_names neuron_activity_df))
  ∧ ∀ dataframe real_diff_df p_value threshold,
      classify_neurons_non_parametrically dataframe
        (empty_frame (column_names neuron_activity_df)) real_diff_df
        p_value threshold
      = Raise ZeroDivisionError.
Proof.
  intros HW HR Harrival Hne. split.
  - unfold shuffle. destruct W as [|W']; [lia|].
    assert (Hn : Z.to_nat (R / Z.of_nat (S W')) = 0%nat).
    { assert (R / Z.of_nat (S W') < 1)%Z
        by (apply Z.div_lt_upper_bound; lia).
      lia. }
    rewrite (omap_all_Some _ (empty_frame (column_names neuron_activity_df))).
    + assert (Hlen : length arrival = S W')
        by by rewrite Harrival, length_seq.
      rewrite length_replicate, Hlen, Nat.ltb_irrefl.
      rewrite take_ge by (rewrite length_replicate; lia).
      by rewrite concat_empty_frames.
    + intros w. unfold shuffle_worker, shuffle_worker_run.
      destruct (first_and_last_Ok _ Hne) as (c & c' & -> & _ & _).
      cbn. by rewrite Hn.
  - intros dataframe real_diff_df p_value threshold.
    apply non_parametric_no_rows; [done|].
    unfold column_names, empty_frame in *. cbn [columns].
    change (map ?f ?l) with (f <$> l). rewrite <- list_fmap_compose.
    intros Hnil. apply Hne. apply fmap_nil_inv in Hnil.
    by rewrite Hnil.
Qed.

(** X16. With a generator that draws permutations of the rows, on a
    combined table under the default [RangeIndex] whose columns all have as
    many values as the table has rows, a worker that is given the block of
    its activity columns returns and leaves the table with the same row
    index, the same columns in the same order, and in every column the
    values it had, only reordered. *)
Theorem shuffle_worker_keeps_marginals (g : rng) (num_of_experiments : Z)
    (activity combined : DataFrame)
    (behavior1 behavior2 first_col last_col : string)
    (bounds : nat * nat) :
  index combined = range_index (length (index combined)) →
  (∀ g n, (sample_order g n).1 ≡ₚ seq 0 n) →
  Forall (λ col, length col.2 = length (index combined))
    (columns combined) →
  first_and_last (column_names activity) = Ok (first_col, last_col) →
  slice_bounds combined first_col last_col = Ok bounds →
  (∀ t, length (compute_diff_rate t activity behavior1 behavior2)
        = length (column_names activity)) →
  ∃ st,
    shuffle_worker_run sample_order compute_diff_rate g num_of_experiments
      activity combined behavior1 behavior2 = Ok st
    ∧ same_marginals combined (neuron_and_behavior_df st).
Proof.
  intros _ Hperm Hwf Hends Hbounds Hwidth.
  unfold shuffle_worker_run. rewrite Hends. cbn.
  destruct (shuffle_loop sample_order compute_diff_rate activity behavior1
              behavior2 first_col last_col bounds (column_names activity)
              (Z.to_nat num_of_experiments) Hwidth combined g [] Hbounds)
    as (st & Hrun & _).
  cbn in Hrun. exists st.
  replace (empty_frame (column_names activity))
    with (frame_of_rows (column_names activity) []).
  2:{ unfold frame_of_rows, empty_frame. cbn. f_equal.
      apply list_eq. intros i. rewrite list_lookup_imap.
      change (map ?f ?l) with (f <$> l). rewrite list_lookup_fmap.
      by destruct (column_names activity !! i). }
  split; [done|]. revert Hrun.
  apply (for_each_preserves
           (λ s, same_marginals combined (neuron_and_behavior_df s))).
  - cbn. split; [done|]. apply Forall2_same_length_lookup.
    split; [done|]. intros i c0 c H0 H. rewrite H0 in H.
    by injection H as <-.
  - intros k s s1 Hs Hstep. unfold shuffle_iteration in Hstep.
    destruct (slice_bounds (neuron_and_behavior_df s) first_col last_col)
      as [b|]; [|done].
    cbn in Hstep.
    pose proof (Hperm (generator s)
                  (length (index (neuron_and_behavior_df s)))) as Ho.
    destruct (sample_order (generator s)
                (length (index (neuron_and_behavior_df s))))
      as [order g'].
    destruct (append_row _ _ _) as [sh|]; [|done].
    cbn in Hstep. injection Hstep as <-. cbn.
    by apply permute_block_marginals.
Qed.

(** What [shuffle] returns, by worker: frames that do not depend on the
    order of arrival, concatenated in that order. *)
Lemma shuffle_as_concat (W : nat) (seeds : nat → rng) (R : Z)
    (combined activity : DataFrame) (behavior1 behavior2 : string) :
  (1 <= W)%nat →
  column_names activity ≠ [] →
  column_names activity ⊆ column_names combined →
  (∀ t, length (compute_diff_rate t activity behavior1 behavior2)
        = length (column_names activity)) →
  ∃ F : nat → DataFrame,
    (∀ w, shuffle_worker sample_order compute_diff_rate (seeds w)
            (R / Z.of_nat W) activity combined behavior1 behavior2
          = Ok (F w))
    ∧ (∀ w, ∃ rows, F w = frame_of_rows (column_names activity) rows)
    ∧ ∀ arrival, length arrival = W →
        ∃ table,
          concat (F <$> arrival) = Ok table
          ∧ shuffle sample_order compute_diff_rate W seeds arrival R
              combined activity behavior1 behavior2
            = Returned table.
Proof.
  intros HW Hne Hsub Hwidth.
  destruct (first_and_last_Ok _ Hne) as (c & c' & Hends & Hc & Hc').
  destruct (slice_bounds_Ok combined c c') as [bounds Hbounds];
    [by apply Hsub..|].
  eexists (λ w, frame_of_rows (column_names activity) _).
  split_and!.
  - intros w. by eapply (shuffle_worker_eq sample_order compute_diff_rate).
  - intros w. by eexists.
  - intros arrival Hlen. unfold shuffle. destruct W as [|W']; [lia|].
    rewrite (omap_Some_fmap _ (λ w, frame_of_rows (column_names activity)
      (map (λ t, compute_diff_rate t activity behavior1 behavior2)
         (tables_seen combined bounds
            (drawn_orders sample_order (seeds w) (length (index combined))
               (Z.to_nat (R / Z.of_nat (S W')))))))).
    2:{ intros w.
        by rewrite (shuffle_worker_eq sample_order compute_diff_rate
                      _ _ _ _ _ _ c c' bounds Hends Hbounds Hwidth). }
    rewrite length_fmap, Hlen, Nat.ltb_irrefl.
    rewrite take_ge by (rewrite length_fmap; lia).
    destruct arrival as [|a arrival]; [done|].
    cbn [fmap list_fmap]. eexists. split; [done|]. done.
Qed.

(** X14. When every worker starts from the same generator state, as
    happens to workers forked from one process, they all compute the same
    frame:
    the table [shuffle] returns holds every column of that frame [W] times
    over, so it has no more than [floor(R / W)] different rows. *)
Theorem shuffle_identical_seeds (W : nat) (seeds : nat → rng) (g : rng)
    (arrival : list nat) (R : Z) (combined activity : DataFrame)
    (behavior1 behavior2 : string) :
  (∀ w, seeds w = g) →
  (1 <= W)%nat →
  arrival ≡ₚ seq 0 W →
  column_names activity ≠ [] →
  column_names activity ⊆ column_names combined →
  (∀ t, length (compute_diff_rate t activity behavior1 behavior2)
        = length (column_names activity)) →
  ∃ frame table,
    shuffle_worker sample_order compute_diff_rate g (R / Z.of_nat W)
      activity combined behavior1 behavior2 = Ok frame
    ∧ shuffle sample_order compute_diff_rate W seeds arrival R
        combined activity behavior1 behavior2 = Returned table
    ∧ column_names table = column_names frame
    ∧ ∀ c vs, assoc c (columns frame) = Some vs →
        assoc c (columns table) = Some (mjoin (replicate W vs)).
Proof.
  intros Hseeds HW Harrival Hne Hsub Hwidth.
  destruct (shuffle_as_concat W seeds R combined activity behavior1
              behavior2 HW Hne Hsub Hwidth) as (F & Hworker & _ & Hshuffle).
  assert (Hlen : length arrival = W) by by rewrite Harrival, length_seq.
  destruct (Hshuffle arrival Hlen) as (table & Hconcat & Hret).
  assert (HF : ∀ w, F w = F 0%nat).
  { intros w. pose proof (Hworker w) as H1. pose proof (Hworker 0%nat) as H2.
    rewrite Hseeds in H1, H2. rewrite H1 in H2. by injection H2. }
  assert (Hqueue : F <$> arrival = replicate W (F 0%nat)).
  { rewrite <- Hlen. clear -HF.
    induction arrival as [|a arrival IH]; [done|].
    cbn. by rewrite (HF a), <- IH. }
  rewrite Hqueue in Hconcat.
  exists (F 0%nat), table. split_and!.
  - by rewrite <- (Hseeds 0%nat).
  - done.
  - destruct W as [|W']; [lia|]. cbn [replicate] in Hconcat.
    unfold concat in Hconcat. injection Hconcat as <-.
    unfold column_names. cbn [columns]. apply list_eq. intros i.
    change (map ?f ?l) with (f <$> l). rewrite !list_lookup_fmap.
    by destruct (columns (F 0%nat) !! i).
  - intros c vs Hvs. destruct W as [|W']; [lia|].
    rewrite replicate_S in Hconcat.
    rewrite (concat_assoc _ _ _ c Hconcat), Hvs. f_equal.
    rewrite <- replicate_S. generalize (S W') as n. intros n.
    induction n as [|n IH]; [done|].
    cbn [replicate flat_map]. rewrite Hvs, IH. done.
Qed.

(** X15. The order in which the workers finish does not matter to what is
    computed from the table: for two orders of arrival [shuffle] returns
    tables with the same columns, on which [compute_two_side_p_val] gives
    the same result for every observed table and neuron, and
    [classify_neurons_non_parametrically] the same result for every
    activity table, observed table, cutoff and threshold. *)
Theorem shuffle_arrival_order (W : nat) (seeds : nat → rng)
    (arrival1 arrival2 : list nat) (R : Z) (combined activity : DataFrame)
    (behavior1 behavior2 : string) :
  (1 <= W)%nat →
  arrival1 ≡ₚ seq 0 W →
  arrival2 ≡ₚ seq 0 W →
  column_names activity ≠ [] →
  column_names activity ⊆ column_names combined →
  (∀ t, length (compute_diff_rate t activity behavior1 behavior2)
        = length (column_names activity)) →
  ∃ table1 table2,
    shuffle sample_order compute_diff_rate W seeds arrival1 R
      combined activity behavior1 behavior2 = Returned table1
    ∧ shuffle sample_order compute_diff_rate W seeds arrival2 R
        combined activity behavior1 behavior2 = Returned table2
    ∧ column_names table1 = column_names table2
    ∧ (∀ observed neuron,
         compute_two_side_p_val table1 observed neuron
         = compute_two_side_p_val table2 observed neuron)
    ∧ (∀ dataframe observed p_value threshold,
         classify_neurons_non_parametrically dataframe table1 observed
           p_value threshold
         = classify_neurons_non_parametrically dataframe table2 observed
             p_value threshold).
Proof.
  intros HW Ha1 Ha2 Hne Hsub Hwidth.
  destruct (shuffle_as_concat W seeds R combined activity behavior1
              behavior2 HW Hne Hsub Hwidth) as (F & _ & Hframes & Hshuffle).
  assert (Hl1 : length arrival1 = W) by by rewrite Ha1, length_seq.
  assert (Hl2 : length arrival2 = W) by by rewrite Ha2, length_seq.
  destruct (Hshuffle arrival1 Hl1) as (t1 & Hc1 & Hr1).
  destruct (Hshuffle arrival2 Hl2) as (t2 & Hc2 & Hr2).
  exists t1, t2. split; [done|]. split; [done|].
  assert (Hperm : F <$> arrival1 ≡ₚ F <$> arrival2).
  { by rewrite Ha1, Ha2. }
  destruct arrival1 as [|a1 arrival1]; [cbn in Hl1; lia|].
  destruct arrival2 as [|a2 arrival2]; [cbn in Hl2; lia|].
  cbn [fmap list_fmap] in Hc1, Hc2, Hperm.
  pose proof (λ c, concat_assoc _ _ _ c Hc1) as Hcol1.
  pose proof (λ c, concat_assoc _ _ _ c Hc2) as Hcol2.
  assert (Hnames : ∀ t f frames, concat (f :: frames) = Ok t →
                     column_names t = column_names f).
  { intros t f frames [= <-]. unfold column_names. cbn [columns].
    apply list_eq. intros i.
    change (map ?f ?l) with (f <$> l). rewrite !list_lookup_fmap.
    by destruct (columns f !! i). }
  assert (Hsame : column_names t1 = column_names t2).
  { rewrite (Hnames _ _ _ Hc1), (Hnames _ _ _ Hc2).
    destruct (Hframes a1) as [rows1 ->], (Hframes a2) as [rows2 ->].
    by rewrite !frame_of_rows_column_names. }
  assert (Hp : ∀ observed neuron,
    compute_two_side_p_val t1 observed neuron
    = compute_two_side_p_val t2 observed neuron).
  { intros observed neuron. apply compute_two_side_p_val_Permutation.
    - rewrite (concat_index _ _ _ Hc1), (concat_index _ _ _ Hc2).
      apply Permutation_length. by apply Permutation_flat_map.
    - rewrite Hcol1, Hcol2.
      assert (Hin : is_Some (assoc neuron (columns (F a1)))
                    ↔ is_Some (assoc neuron (columns (F a2)))).
      { rewrite <- !assoc_is_Some.
        destruct (Hframes a1) as [rows1 ->], (Hframes a2) as [rows2 ->].
        change (?s ∈ (columns ?f).*1) with (s ∈ column_names f).
        by rewrite !frame_of_rows_column_names. }
      destruct (assoc neuron (columns (F a1))) as [v1|],
               (assoc neuron (columns (F a2))) as [v2|]; try done.
      + by apply Permutation_flat_map.
      + destruct Hin as [Hin _]. by destruct Hin.
      + destruct Hin as [_ Hin]. by destruct Hin. }
  split; [done|]. split; [done|].
  intros dataframe observed p_value threshold.
  unfold classify_neurons_non_parametrically.
  destruct (event_count_filter dataframe threshold) as [m1|]; [|done].
  cbn. rewrite Hsame. apply for_each_ext. intros k m. by rewrite Hp.
Qed.

End ShuffleEdgeCases.

(** ** The data selection of the plotting client *)

Lemma split_char_nonempty (sep : ascii) (s : string) :
  split_char sep s ≠ [].
Proof.
  destruct s as [|a rest]; [done|]. cbn.
  destruct (Ascii.eqb a sep); [done|].
  by destruct (split_char sep rest).
Qed.

Lemma split_char_join (sep : ascii) (s : string) :
  String.concat (String sep EmptyString) (split_char sep s) = s.
Proof.
  induction s as [|a rest IH]; [done|]. cbn [split_char].
  destruct (Ascii.eqb_spec a sep) as [->|Hne].
  - pose proof (split_char_nonempty sep rest) as Hne.
    destruct (split_char sep rest) as [|p ps] eqn:E; [done|].
    cbn. cbn in IH. by rewrite IH.
  - pose proof (split_char_nonempty sep rest) as Hn.
    destruct (split_char sep rest) as [|p ps] eqn:E; [done|].
    destruct ps as [|p' ps]; cbn in *; by rewrite <- IH.
Qed.

Lemma split_char_length (sep : ascii) (s : string) :
  length (split_char sep s) = S (count_char sep s).
Proof.
  induction s as [|a rest IH]; [done|]. cbn.
  destruct (Ascii.eqb a sep); cbn; [by rewrite IH|].
  pose proof (split_char_nonempty sep rest) as Hn.
  destruct (split_char sep rest) as [|p ps]; [done|]. by rewrite <- IH.
Qed.

Lemma split_char_pieces (sep c : ascii) (s piece : string) :
  piece ∈ split_char sep s →
  count_char sep piece = 0%nat
  ∧ (count_char c s = 0%nat → count_char c piece = 0%nat).
Proof.
  revert piece. induction s as [|a rest IH]; intros piece; cbn.
  - by intros ->%list_elem_of_singleton.
  - destruct (Ascii.eqb_spec a sep) as [->|Hne].
    + intros [->|Hin]%elem_of_cons; [split; [done|]|].
      * by destruct (Ascii.eqb sep c).
      * destruct (IH _ Hin) as [H1 H2]. split; [done|].
        destruct (Ascii.eqb sep c); [done | exact H2].
    + pose proof (split_char_nonempty sep rest) as Hn.
      destruct (split_char sep rest) as [|p ps]; [done|].
      intros [->|Hin]%elem_of_cons.
      * destruct (IH p) as [H1 H2]; [apply list_elem_of_here|]. cbn.
        apply Ascii.eqb_neq in Hne. rewrite Hne. split; [done|].
        destruct (Ascii.eqb a c); [done | exact H2].
      * destruct (IH piece) as [H1 H2]; [by apply list_elem_of_further|].
        split; [done|]. destruct (Ascii.eqb a c); [done | exact H2].
Qed.

Lemma remove_char_count (c : ascii) (s : string) :
  count_char c (remove_char c s) = 0%nat.
Proof.
  induction s as [|a rest IH]; [done|]. cbn.
  destruct (Ascii.eqb a c) eqn:E; [done|]. cbn. by rewrite E.
Qed.

Lemma remove_char_other (c c' : ascii) (s : string) :
  c' ≠ c → count_char c' (remove_char c s) = count_char c' s.
Proof.
  intros Hne. induction s as [|a rest IH]; [done|]. cbn.
  destruct (Ascii.eqb_spec a c) as [->|Ha]; cbn.
  - apply Ascii.eqb_neq in Hne. rewrite Ascii.eqb_sym in Hne.
    by rewrite Hne.
  - by destruct (Ascii.eqb a c'); rewrite IH.
Qed.

(** X17. [parse_data_selection] never returns an empty list: a selection
    with [n] commas gives [n + 1] names, empty ones included.  No name
    holds a space or a comma, and the names joined by commas are the
    selection without its spaces. *)
Theorem parse_data_selection_names (neurons : string) :
  length (parse_data_selection neurons) = S (count_char "," neurons)
  ∧ String.concat "," (parse_data_selection neurons)
    = remove_char " " neurons
  ∧ ∀ name, name ∈ parse_data_selection neurons →
      count_char "," name = 0%nat ∧ count_char " " name = 0%nat.
Proof.
  unfold parse_data_selection. split_and!.
  - rewrite split_char_length. f_equal.
    by apply remove_char_other.
  - apply split_char_join.
  - intros name Hin.
    destruct (split_char_pieces "," " " _ _ Hin) as [H1 H2].
    split; [done|]. apply H2, remove_char_count.
Qed.

Lemma filter_epochs_acc (framerate seconds : Z)
    (series acc : list (list Z)) :
  foldl (λ intervals interval,
           if (framerate * seconds <=? Z.of_nat (length interval))%Z
           then intervals ++ [interval]
           else intervals)
        acc series
  = acc ++ filter (λ interval,
                     (framerate * seconds <= Z.of_nat (length interval))%Z)
             series.
Proof.
  revert acc. induction series as [|i series IH]; intros acc; cbn [foldl].
  - by rewrite filter_nil, app_nil_r.
  - rewrite IH, filter_cons.
    destruct (Z.leb_spec (framerate * seconds) (Z.of_nat (length i)));
      case_decide; try lia; [|done].
    by rewrite <- app_assoc.
Qed.

(** X18. [filter_epochs] keeps, in their order, exactly the intervals of at
    least [framerate * seconds] samples.  Called as [get_behavior] calls
    it, with [framerate = 1] and [seconds = 1], it drops only empty
    intervals, so a series without empty intervals comes back unchanged;
    and filtering a second time changes nothing. *)
Theorem filter_epochs_keeps (interval_series : list (list Z))
    (framerate seconds : Z) :
  filter_epochs interval_series framerate seconds
  = filter (λ interval,
              (framerate * seconds <= Z.of_nat (length interval))%Z)
      interval_series
  ∧ (Forall (λ interval, interval ≠ []) interval_series →
     filter_epochs interval_series 1 1 = interval_series)
  ∧ filter_epochs (filter_epochs interval_series framerate seconds)
      framerate seconds
    = filter_epochs interval_series framerate seconds.
Proof.
  assert (Heq : ∀ series f s,
    filter_epochs series f s
    = filter (λ interval, (f * s <= Z.of_nat (length interval))%Z) series).
  { intros series f s. unfold filter_epochs.
    by rewrite filter_epochs_acc. }
  split_and!.
  - apply Heq.
  - intros Hall. rewrite Heq.
    induction Hall as [|i series Hi _ IH]; [done|].
    rewrite filter_cons, decide_True, IH; [done|].
    destruct i; [done|]. cbn [length]. lia.
  - rewrite !Heq. rewrite list_filter_filter.
    apply list_filter_iff. tauto.
Qed.

(** ** The further properties at sample inputs *)

Lemma compute_two_side_p_val_range_witness :
  ∃ p, compute_two_side_p_val Samples.null_4 Samples.observed_d "n0" = Ok p
       ∧ 0 <= p <= 1.
Proof.
  apply (compute_two_side_p_val_range Samples.null_4 Samples.observed_d
           "n0" [1; -5; 6; 3] [] 2).
  - discriminate.
  - reflexivity.
  - reflexivity.
  - reflexivity.
Defined.

Lemma compute_two_side_p_val_extremes_witness :
  (∃ p, compute_two_side_p_val Samples.null_4
          (mkFrame [LStr "d"] [("n0"%string, [7])]) "n0" = Ok p
        ∧ p == 0)
  ∧ (∃ p, compute_two_side_p_val Samples.null_4 Samples.observed_d "n0"
          = Ok p
          ∧ ¬ p == 0).
Proof.
  split.
  - destruct (compute_two_side_p_val_extremes Samples.null_4
                (mkFrame [LStr "d"] [("n0"%string, [7])]) "n0"
                [1; -5; 6; 3] [] 7) as (p & Hp & Hzero).
    + discriminate.
    + reflexivity.
    + reflexivity.
    + exists p. split; [exact Hp|]. apply Hzero.
      repeat (constructor; [by vm_compute|]). constructor.
  - destruct (compute_two_side_p_val_extremes Samples.null_4
                Samples.observed_d "n0" [1; -5; 6; 3] [] 2)
      as (p & Hp & Hzero).
    + discriminate.
    + reflexivity.
    + reflexivity.
    + exists p. split; [exact Hp|]. intros Hp0. apply Hzero in Hp0.
      apply Forall_cons in Hp0 as [_ Hp0].
      apply Forall_cons in Hp0 as [Hfive _].
      apply Hfive. by vm_compute.
Defined.

(** All 49 null values are as extreme as the observed one, and the value
    returned is the float below 1. *)
Example p_value_of_49_in_49 :
  ∃ p, Binary64.compute_two_side_p_val Samples64.null_49
         Samples64.observed_1 "n0" = Ok p
       ∧ (p <? 1)%float = true.
Proof. eexists. split; by vm_compute. Qed.

Lemma compute_two_side_p_val_lookup_errors_witness :
  ("n1"%string ∉ column_names Samples.null_4 →
     compute_two_side_p_val Samples.null_4 Samples.observed_d "n1"
     = Raise KeyError)
  ∧ ("n1"%string ∈ column_names Samples.null_4 →
     "n1"%string ∉ column_names Samples.observed_d →
     compute_two_side_p_val Samples.null_4 Samples.observed_d "n1"
     = Raise KeyError)
  ∧ ("n1"%string ∈ column_names Samples.null_4 →
     assoc "n1" (columns Samples.observed_d) = Some [] →
     compute_two_side_p_val Samples.null_4 Samples.observed_d "n1"
     = Raise IndexError).
Proof.
  apply (compute_two_side_p_val_lookup_errors Samples.null_4
           Samples.observed_d "n1").
  discriminate.
Defined.

Lemma classify_neurons_non_parametrically_keys_witness :
  (∀ k, is_Some (({["n0"%string := "not-selective"%string]}
                  : gmap string string) !! k) ↔
        below_threshold Samples.busy_activity 2 k
        ∨ k ∈ column_names Samples.null_4)
  ∧ (∀ k lab, ({["n0"%string := "not-selective"%string]}
               : gmap string string) !! k = Some lab →
       lab = "unclassified"%string ∨ lab = "selective"%string
       ∨ lab = "not-selective"%string)
  ∧ (∀ k, ({["n0"%string := "not-selective"%string]}
           : gmap string string) !! k = Some "unclassified"%string ↔
          below_threshold Samples.busy_activity 2 k).
Proof.
  apply (classify_neurons_non_parametrically_keys Samples.busy_activity
           Samples.null_4 Samples.observed_d default_p_value 2).
  vm_compute. reflexivity.
Defined.

Lemma classify_neurons_parametrically_keys_witness :
  (∀ k, is_Some (({["n0"%string := "Not-selective"%string]}
                  : gmap string string) !! k) ↔
        below_threshold Samples.busy_activity 2 k
        ∨ k ∈ column_names Samples.null_4)
  ∧ (∀ k, below_threshold Samples.busy_activity 2 k →
          ({["n0"%string := "Not-selective"%string]}
           : gmap string string) !! k = Some "unclassified"%string)
  ∧ (∀ k lab, ¬ below_threshold Samples.busy_activity 2 k →
       ({["n0"%string := "Not-selective"%string]}
        : gmap string string) !! k = Some lab →
       two_tailed_neuron_classification Samples.null_4 Samples.observed_d k
         "Running" 95 5 = Ok lab
       ∧ (lab = "Running"%string ∨ lab = ("Non-" +:+ "Running")
          ∨ lab = "Not-selective"%string)).
Proof.
  apply (classify_neurons_parametrically_keys Samples.busy_activity
           Samples.null_4 Samples.observed_d "Running" 95 5 2).
  vm_compute. reflexivity.
Defined.

Lemma null_4_all_quiet (c : string) :
  c ∈ column_names Samples.null_4 →
  below_threshold Samples.quiet_activity default_threshold c.
Proof.
  intros Hc. apply list_elem_of_singleton in Hc as ->.
  exists [0; 0; 1]. split; [reflexivity|]. vm_compute. reflexivity.
Defined.

Lemma classify_neurons_parametrically_all_filtered_witness :
  classify_neurons_parametrically Samples.quiet_activity Samples.null_4
    Samples.observed_0 "Running" 200 (-1) default_threshold
  = event_count_filter Samples.quiet_activity default_threshold.
Proof.
  apply (classify_neurons_parametrically_all_filtered
           Samples.quiet_activity Samples.null_4 Samples.observed_0
           "Running" 200 (-1) default_threshold).
  exact null_4_all_quiet.
Defined.

Lemma classify_neurons_non_parametrically_no_rows_witness :
  (column_names Samples.no_resamples ≠ [] →
     classify_neurons_non_parametrically Samples.busy_activity
       Samples.no_resamples Samples.observed_d default_p_value 2
     = Raise ZeroDivisionError)
  ∧ (column_names Samples.no_resamples = [] →
     classify_neurons_non_parametrically Samples.busy_activity
       Samples.no_resamples Samples.observed_d default_p_value 2
     = event_count_filter Samples.busy_activity 2).
Proof.
  apply (classify_neurons_non_parametrically_no_rows Samples.busy_activity
           Samples.no_resamples Samples.observed_d default_p_value 2).
  reflexivity.
Defined.




Lemma stray_activity_missing :
  "n9"%string ∉ column_names Samples.unsorted_combined.
Proof.
  intros H. cbn in H.
  repeat (apply elem_of_cons in H as [H|H]; [discriminate|]).
  by apply elem_of_nil in H.
Defined.

Lemma shuffle_blocks_witness :
  shuffle Samples.reversing Samples.first_row 4 (λ _, tt)
    [1; 0; 3; 2]%nat 10 Samples.unsorted_combined
    (mkFrame (range_index 3) []) "open" "closed" = Blocked
  ∧ shuffle Samples.reversing Samples.first_row 4 (λ _, tt)
      [1; 0; 3; 2]%nat 10 Samples.unsorted_combined
      Samples.stray_activity "open" "closed" = Blocked.
Proof.
  assert (H : (1 <= 4)%nat) by lia.
  destruct (shuffle_blocks Samples.reversing Samples.first_row 4 (λ _, tt)
              [1; 0; 3; 2]%nat 10 Samples.unsorted_combined
              (mkFrame (range_index 3) []) "open" "closed" H)
    as [Hnone _].
  destruct (shuffle_blocks Samples.reversing Samples.first_row 4 (λ _, tt)
              [1; 0; 3; 2]%nat 10 Samples.unsorted_combined
              Samples.stray_activity "open" "closed" H)
    as [_ Hmissing].
  split.
  - apply Hnone. reflexivity.
  - apply (Hmissing "n9"%string "n9"%string).
    + reflexivity.
    + left. exact stray_activity_missing.
    + reflexivity.
    + reflexivity.
    + lia.
Defined.

(** On the sorted column names of [Samples.combined] a label that is not a
    column is placed by position: the slice is empty and nothing raises. *)
Example slice_bounds_missing_label_sorted :
  slice_bounds Samples.combined "n9" "n9" = Ok (1, 1)%nat
  ∧ slice_bounds Samples.unsorted_combined "n9" "n9" = Raise KeyError.
Proof. by vm_compute. Qed.

Lemma shuffle_fewer_resamples_than_cores_witness :
  shuffle Samples.reversing Samples.first_row 4 (λ _, tt)
    [1; 0; 3; 2]%nat 3 Samples.combined Samples.busy_activity
    "open" "closed"
  = Returned (empty_frame (column_names Samples.busy_activity))
  ∧ ∀ dataframe real_diff_df p_value threshold,
      classify_neurons_non_parametrically dataframe
        (empty_frame (column_names Samples.busy_activity)) real_diff_df
        p_value threshold
      = Raise ZeroDivisionError.
Proof.
  apply (shuffle_fewer_resamples_than_cores Samples.reversing
           Samples.first_row 4 (λ _, tt) [1; 0; 3; 2]%nat 3
           Samples.combined Samples.busy_activity "open" "closed").
  - lia.
  - lia.
  - exact arrival_order.
  - discriminate.
Defined.

Lemma shuffle_identical_seeds_witness :
  ∃ frame table,
    shuffle_worker Samples.reversing Samples.first_row tt (10 / Z.of_nat 4)
      Samples.busy_activity Samples.combined "open" "closed" = Ok frame
    ∧ shuffle Samples.reversing Samples.first_row 4 (λ _, tt)
        [1; 0; 3; 2]%nat 10 Samples.combined Samples.busy_activity
        "open" "closed" = Returned table
    ∧ column_names table = column_names frame
    ∧ ∀ c vs, assoc c (columns frame) = Some vs →
        assoc c (columns table) = Some (mjoin (replicate 4 vs)).
Proof.
  apply (shuffle_identical_seeds Samples.reversing Samples.first_row 4
           (λ _, tt) tt [1; 0; 3; 2]%nat 10 Samples.combined
           Samples.busy_activity "open" "closed").
  - reflexivity.
  - lia.
  - exact arrival_order.
  - discriminate.
  - exact busy_activity_in_combined.
  - exact first_row_width.
Defined.

Lemma shuffle_arrival_order_witness :
  ∃ table1 table2,
    shuffle Samples.reversing Samples.first_row 4 (λ _, tt)
      [1; 0; 3; 2]%nat 10 Samples.combined Samples.busy_activity
      "open" "closed" = Returned table1
    ∧ shuffle Samples.reversing Samples.first_row 4 (λ _, tt)
        (seq 0 4) 10 Samples.combined Samples.busy_activity
        "open" "closed" = Returned table2
    ∧ column_names table1 = column_names table2
    ∧ (∀ observed neuron,
         compute_two_side_p_val table1 observed neuron
         = compute_two_side_p_val table2 observed neuron)
    ∧ (∀ dataframe observed p_value threshold,
         classify_neurons_non_parametrically dataframe table1 observed
           p_value threshold
         = classify_neurons_non_parametrically dataframe table2 observed
             p_value threshold).
Proof.
  apply (shuffle_arrival_order Samples.reversing Samples.first_row 4
           (λ _, tt) [1; 0; 3; 2]%nat (seq 0 4) 10 Samples.combined
           Samples.busy_activity "open" "closed").
  - lia.
  - exact arrival_order.
  - reflexivity.
  - discriminate.
  - exact busy_activity_in_combined.
  - exact first_row_width.
Defined.

Lemma reversing_permutes (g : unit) (n : nat) :
  (Samples.reversing g n).1 ≡ₚ seq 0 n.
Proof. cbn. symmetry. apply Permutation_rev. Defined.

Lemma combined_well_formed :
  Forall (λ col, length col.2 = length (index Samples.combined))
    (columns Samples.combined).
Proof. repeat constructor. Defined.

Lemma shuffle_worker_keeps_marginals_witness :
  ∃ st,
    shuffle_worker_run Samples.reversing Samples.first_row tt 2
      Samples.busy_activity Samples.combined "open" "closed" = Ok st
    ∧ same_marginals Samples.combined (neuron_and_behavior_df st).
Proof.
  apply (shuffle_worker_keeps_marginals Samples.reversing Samples.first_row
           tt 2 Samples.busy_activity Samples.combined "open" "closed"
           "n0" "n0" (0, 1)%nat).
  - reflexivity.
  - exact reversing_permutes.
  - exact combined_well_formed.
  - reflexivity.
  - reflexivity.
  - exact first_row_width.
Defined.
